(** * Shallow embedding of the furnish-planner floorplan editor.

    Sources embedded here:
    - src/src/components/FloorplanCanvas.tsx : grid snapping, the tool
      pointer handlers, room finalisation, furniture placement, the
      dimension-label manager, deletion and the context-menu layering.
    - src/src/utils/FloorplanAI.ts : the analysis pipeline and its
      synthetic fallback layout.
    - src/src/utils/fileValidator.ts and FloorplanUpload.tsx : upload
      validation.

    JavaScript numbers are modelled as exact rationals [Q]; [Math.round]
    is [floor (x + 1/2)]. The drawing surface (fabric.js canvas) is a heap
    of objects addressed by references plus the draw-order list of
    references, as fabric keeps it in [_objects]. *)

From stdpp Require Import base list gmap strings.
From Stdlib Require Import ZArith QArith Qround Qabs Qminmax Lqa.
From Stdlib Require Import String Ascii DecimalString.

Open Scope Q_scope.

(* ------------------------------------------------------------------ *)
(** ** Numbers *)

(** [Math.round]: rounds half up. *)
Definition js_round (x : Q) : Z := Qfloor (x + (1 # 2)).

(** [Math.abs], [Math.min], [Math.max] on numbers. *)
Definition js_abs (x : Q) : Q := if Qlt_le_dec x 0 then - x else x.
Definition js_max (a b : Q) : Q := if Qlt_le_dec a b then b else a.

(** [const snapToGrid = (coordinate, gridSize = 20) =>
       Math.round(coordinate / gridSize) * gridSize] *)
Definition snapToGrid (coordinate : Q) (gridSize : Q) : Q :=
  inject_Z (js_round (coordinate / gridSize)) * gridSize.

(** The component's grid size ([useState(20)]), also the default
    argument of [snapToGrid]. *)
Definition gridSize : Q := 20.
Definition majorGridSize : Q := 100.

Definition snap (c : Q) : Q := snapToGrid c gridSize.

Record point := mkPoint { px : Q; py : Q }.

(* ------------------------------------------------------------------ *)
(** ** Room drawing: the working rectangle *)

(** Geometry of a fabric [Rect]. *)
Record rect := mkRect { r_left : Q; r_top : Q; r_width : Q; r_height : Q }.

(** First [mouse:move] of a room drag: a rectangle anchored at the
    (re-snapped) start point with zero size. *)
Definition room_first_move_rect (startPoint : point) : rect :=
  let snappedX := snap (px startPoint) in
  let snappedY := snap (py startPoint) in
  mkRect snappedX snappedY 0 0.

(** Every later [mouse:move] of a room drag:
{[
   const snappedX = snapToGrid(e.pointer.x);
   const snappedY = snapToGrid(e.pointer.y);
   const width = snappedX - startPoint.x;
   const height = snappedY - startPoint.y;
   room.set({ width: Math.abs(width), height: Math.abs(height),
              left: width < 0 ? snappedX : startPoint.x,
              top: height < 0 ? snappedY : startPoint.y });
]} *)
Definition room_move_rect (startPoint pointer : point) : rect :=
  let snappedX := snap (px pointer) in
  let snappedY := snap (py pointer) in
  let width := snappedX - px startPoint in
  let height := snappedY - py startPoint in
  mkRect (if Qlt_le_dec width 0 then snappedX else px startPoint)
         (if Qlt_le_dec height 0 then snappedY else py startPoint)
         (js_abs width) (js_abs height).

(** [mouse:up] of a room drag: the bounds of the final rectangle that
    replaces the working one ([Math.max(1, ...)] on both sizes). *)
Definition room_final_rect (room : rect) : rect :=
  mkRect (r_left room) (r_top room)
         (js_max 1 (r_width room)) (js_max 1 (r_height room)).

(* ------------------------------------------------------------------ *)
(** ** Furniture dimensions: [/(\d+).*?x.*?(\d+)/] and [parseInt] *)

Definition is_digit (c : ascii) : bool :=
  (48 <=? nat_of_ascii c)%nat && (nat_of_ascii c <=? 57)%nat.

(** [.] in a JavaScript regular expression matches every character but a
    line terminator (of which \n and \r are the ASCII ones). *)
Definition is_line_terminator (c : ascii) : bool :=
  (nat_of_ascii c =? 10)%nat || (nat_of_ascii c =? 13)%nat.

(** A backtracking matcher in continuation-passing style, following the
    order in which JavaScript's engine tries the alternatives of each
    quantifier: greedy [\d+] tries the longest run first and gives back
    one digit at a time; lazy [.*?] tries the empty match first and then
    extends by one character. *)
Section Matcher.
Context {A : Type}.

Fixpoint star_digits (s : list ascii)
    (k : list ascii -> list ascii -> option A) : option A :=
  match s with
  | c :: s' =>
      if is_digit c then
        match star_digits s' (fun t r => k (c :: t) r) with
        | Some x => Some x
        | None => k [] s
        end
      else k [] s
  | [] => k [] []
  end.

Definition plus_digits (s : list ascii)
    (k : list ascii -> list ascii -> option A) : option A :=
  match s with
  | c :: s' => if is_digit c then star_digits s' (fun t r => k (c :: t) r) else None
  | [] => None
  end.

Fixpoint lazy_dot (s : list ascii) (k : list ascii -> option A) : option A :=
  match k s with
  | Some x => Some x
  | None =>
      match s with
      | c :: s' => if is_line_terminator c then None else lazy_dot s' k
      | [] => None
      end
  end.
End Matcher.

(** [/(\d+).*?x.*?(\d+)/] anchored at one position: the two groups. *)
Definition dims_regex_at (s : list ascii) : option (list ascii * list ascii) :=
  plus_digits s (fun g1 r1 =>
    lazy_dot r1 (fun r2 =>
      match r2 with
      | c :: r3 =>
          if Ascii.eqb c "x"%char then
            lazy_dot r3 (fun r4 => plus_digits r4 (fun g2 _ => Some (g1, g2)))
          else None
      | [] => None
      end)).

(** [String.prototype.match] with a non-global regex: leftmost match. *)
Fixpoint dims_regex_search (s : list ascii) : option (list ascii * list ascii) :=
  match dims_regex_at s with
  | Some m => Some m
  | None => match s with [] => None | _ :: s' => dims_regex_search s' end
  end.

(** [parseInt] on a run of decimal digits. *)
Definition parseInt_digits (ds : list ascii) : Z :=
  fold_left (fun acc c => acc * 10 + (Z.of_nat (nat_of_ascii c) - 48))%Z ds 0%Z.

(** [const dimensions = furniture.dimensions.match(/(\d+).*?x.*?(\d+)/);
     const width = dimensions ? parseInt(dimensions[1]) : 60;
     const height = dimensions ? parseInt(dimensions[2]) : 40;] *)
Definition furniture_size (dimensions : string) : Z * Z :=
  match dims_regex_search (list_ascii_of_string dimensions) with
  | Some (g1, g2) => (parseInt_digits g1, parseInt_digits g2)
  | None => (60%Z, 40%Z)
  end.

(** A catalog entry ([FurnitureItem] of FurnitureLibrary.tsx), as carried
    by the drag payload. *)
Record furniture_item := mkItem {
  f_id : string; f_name : string; f_category : string;
  f_dimensions : string; f_color : string }.

(* ------------------------------------------------------------------ *)
(** ** The drawing surface *)

(** Shapes of fabric objects. A [Group] of a rectangle and an [IText]
    label is kept as one object holding the rectangle geometry and the
    label text. *)
Inductive shape :=
| SLine (x1 y1 x2 y2 : Q)
| SRect (g : rect)
| SText (left top : Q) (text : string)
| SGroup (g : rect) (label : string).

(** A fabric object with the ad hoc properties the component attaches
    to it ([isRoom], [isFurniture], [isDimensionLabel], [id], [roomId],
    [dimensionType]); an absent property is [false] or [None]. *)
Record fobj := mkObj {
  o_shape : shape;
  isRoom : bool;
  isFurniture : bool;
  isDimensionLabel : bool;
  o_id : option string;
  o_roomId : option string;
  o_dimensionType : option string }.

Definition plain (sh : shape) : fobj := mkObj sh false false false None None None.

(** The mutable state: fabric's object heap and draw order ([_objects],
    back to front), [roomLabelsRef.current] (room id to the width and
    height label) and [roomCounterRef.current]. *)
Record scene := mkScene {
  heap : gmap nat fobj;
  objects : list nat;
  roomLabels : gmap string (nat * nat);
  roomCounter : Z;
  next_ref : nat }.

Definition alloc (o : fobj) (s : scene) : nat * scene :=
  (next_ref s, mkScene (<[next_ref s := o]> (heap s)) (objects s) (roomLabels s)
                       (roomCounter s) (S (next_ref s))).

Definition set_objects (l : list nat) (s : scene) : scene :=
  mkScene (heap s) l (roomLabels s) (roomCounter s) (next_ref s).

Definition obj_at (s : scene) (r : nat) : option fobj := heap s !! r.

Fixpoint remove_first (x : nat) (l : list nat) : list nat :=
  match l with
  | [] => []
  | y :: l' => if Nat.eqb x y then l' else y :: remove_first x l'
  end.

(** [canvas.add(o)]: appended on top. *)
Definition canvas_add (r : nat) (s : scene) : scene := set_objects (objects s ++ [r]) s.

(** [canvas.remove(o)]: first occurrence removed. *)
Definition canvas_remove (r : nat) (s : scene) : scene :=
  set_objects (remove_first r (objects s)) s.

(** [canvas.bringObjectToFront(o)] *)
Definition bringObjectToFront (r : nat) (s : scene) : scene :=
  if existsb (Nat.eqb r) (objects s)
  then set_objects (remove_first r (objects s) ++ [r]) s else s.

(** [canvas.sendObjectToBack(o)] *)
Definition sendObjectToBack (r : nat) (s : scene) : scene :=
  if existsb (Nat.eqb r) (objects s)
  then set_objects (r :: remove_first r (objects s)) s else s.

Fixpoint index_of (r : nat) (l : list nat) : option nat :=
  match l with
  | [] => None
  | y :: l' => if Nat.eqb r y then Some 0%nat else option_map S (index_of r l')
  end.

(** [canvas.sendObjectBackwards(o)]: one step down the stack. *)
Definition sendObjectBackwards (r : nat) (s : scene) : scene :=
  match index_of r (objects s) with
  | Some (S i) =>
      let l := remove_first r (objects s) in
      set_objects (take i l ++ r :: drop i l) s
  | _ => s
  end.

(** [getObjects().forEach(obj => { if (obj.isFurniture) bringObjectToFront(obj) })]:
    [getObjects] returns a copy, so the loop runs over a snapshot. *)
Definition raise_furniture (s : scene) : scene :=
  fold_left (fun s r =>
    match obj_at s r with
    | Some o => if isFurniture o then bringObjectToFront r s else s
    | None => s
    end) (objects s) s.

Definition update_obj (r : nat) (f : fobj -> fobj) (s : scene) : scene :=
  match heap s !! r with
  | Some o => mkScene (<[r := f o]> (heap s)) (objects s) (roomLabels s)
                      (roomCounter s) (next_ref s)
  | None => s
  end.

Definition set_labels (m : gmap string (nat * nat)) (s : scene) : scene :=
  mkScene (heap s) (objects s) m (roomCounter s) (next_ref s).

(** Adding a list of new objects one after the other. *)
Definition add_all (os : list fobj) (s : scene) : scene :=
  fold_left (fun s o => let '(r, s') := alloc o s in canvas_add r s') os s.

(* ------------------------------------------------------------------ *)
(** ** Grid *)

Definition canvasWidth : Q := 1200.
Definition canvasHeight : Q := 800.

(** The [for (let i = 0; i <= canvasWidth; i += gridSize)] loops. *)
Definition grid_steps (extent : Q) : list Q :=
  map (fun k => inject_Z (Z.of_nat k) * gridSize)
      (seq 0 (S (Z.to_nat (Qfloor (extent / gridSize))))).

Definition addGridToCanvas (s : scene) : scene :=
  add_all (map (fun i => plain (SLine i 0 i canvasHeight)) (grid_steps canvasWidth) ++
           map (fun i => plain (SLine 0 i canvasWidth i)) (grid_steps canvasHeight)) s.

(** The canvas right after construction: an empty scene and the grid. *)
Definition init_scene : scene := addGridToCanvas (mkScene ∅ [] ∅ 1%Z 0%nat).

(** [clearCanvas]: [canvas.clear()] drops every object, then the grid is
    redrawn; [roomLabelsRef] is left as it is. *)
Definition clearCanvas (s : scene) : scene := addGridToCanvas (set_objects [] s).

(* ------------------------------------------------------------------ *)
(** ** Dimension label manager *)

Definition Z_to_string (z : Z) : string := NilZero.string_of_int (Z.to_int z).

(** [`${v}'`] for [v = Math.round(px / 20 * 10) / 10]; the value is kept
    as its integer number of tenths [k], and JavaScript prints [k / 10]
    without a fractional part when [k] is a multiple of ten. *)
Definition feet_text (tenths : Z) : string :=
  (if (tenths mod 10 =? 0)%Z then Z_to_string (tenths / 10)
   else (if (tenths <? 0)%Z then "-" else EmptyString) ++ Z_to_string (Z.abs tenths / 10)
        ++ "." ++ Z_to_string (Z.abs tenths mod 10)) ++ "'".

(** [Math.round(px / 20 * 10)]: the feet value in tenths. *)
Definition feet_tenths (pixels : Q) : Z := js_round (pixels / 20 * 10).

(** [label.set({ left, top, text })] on a text object. *)
Definition set_text (left top : Q) (txt : string) (o : fobj) : fobj :=
  match o_shape o with
  | SText _ _ _ => mkObj (SText left top txt) (isRoom o) (isFurniture o)
                         (isDimensionLabel o) (o_id o) (o_roomId o) (o_dimensionType o)
  | _ => o
  end.

Definition dimension_label (left top : Q) (txt roomId kind : string) : fobj :=
  mkObj (SText left top txt) false false true None (Some roomId) (Some kind).

(** [createRoomDimensionLabels(roomId, left, top, width, height, widthFeet, heightFeet)] *)
Definition createRoomDimensionLabels (roomId : string) (left top width height : Q)
    (widthFeet heightFeet : Z) (s : scene) : scene :=
  match roomLabels s !! roomId with
  | Some (w, h) =>
      update_obj h (set_text (left + width + 15) (top + height / 2) (feet_text heightFeet))
        (update_obj w (set_text (left + width / 2) (top + height + 15) (feet_text widthFeet)) s)
  | None =>
      let '(w, s1) := alloc (dimension_label (left + width / 2) (top + height + 15)
                               (feet_text widthFeet) roomId "width") s in
      let '(h, s2) := alloc (dimension_label (left + width + 15) (top + height / 2)
                               (feet_text heightFeet) roomId "height") s1 in
      let s3 := set_labels (<[roomId := (w, h)]> (roomLabels s2)) s2 in
      canvas_add h (canvas_add w s3)
  end.

Definition js_min (a b : Q) : Q := if Qlt_le_dec b a then b else a.

(** [updateRoomDimensions(room, start, end)] during a drag. *)
Definition updateRoomDimensions (roomId : option string) (start fin : point)
    (s : scene) : scene :=
  match roomId with
  | None => s
  | Some id =>
      let width := js_abs (px fin - px start) in
      let height := js_abs (py fin - py start) in
      if Qlt_le_dec 10 width then
        if Qlt_le_dec 10 height then
          createRoomDimensionLabels id (js_min (px start) (px fin)) (js_min (py start) (py fin))
            width height (feet_tenths width) (feet_tenths height) s
        else s
      else s
  end.

(** [updatePersistentRoomDimensions(room)] from the room's bounding rectangle. *)
Definition updatePersistentRoomDimensions (roomId : option string) (bounds : rect)
    (s : scene) : scene :=
  match roomId with
  | None => s
  | Some id =>
      if Qlt_le_dec 10 (r_width bounds) then
        if Qlt_le_dec 10 (r_height bounds) then
          createRoomDimensionLabels id (r_left bounds) (r_top bounds) (r_width bounds)
            (r_height bounds) (feet_tenths (r_width bounds)) (feet_tenths (r_height bounds)) s
        else s
      else s
  end.

Definition is_label_of (roomId : string) (s : scene) (r : nat) : bool :=
  match obj_at s r with
  | Some o => isDimensionLabel o && bool_decide (o_roomId o = Some roomId)
  | None => false
  end.

(** [removeRoomDimensionLabels(roomId)]: the index first, else a scan. *)
Definition removeRoomDimensionLabels (roomId : string) (s : scene) : scene :=
  match roomLabels s !! roomId with
  | Some (w, h) =>
      set_labels (delete roomId (roomLabels s)) (canvas_remove h (canvas_remove w s))
  | None =>
      fold_left (fun s r => canvas_remove r s)
                (filter (fun r => is_label_of roomId s r) (objects s)) s
  end.

Definition is_room_id (id : option string) : bool :=
  match id with Some i => String.prefix "room_" i | None => false end.

(** The scene part of [handleDeleteObject] for the selected object. *)
Definition handleDeleteObject (selected : option nat) (s : scene) : scene :=
  match selected with
  | None => s
  | Some r =>
      let s1 := match obj_at s r with
                | Some o => match o_id o with
                            | Some id => if String.prefix "room_" id
                                         then removeRoomDimensionLabels id s else s
                            | None => s
                            end
                | None => s
                end in
      canvas_remove r s1
  end.

(* ------------------------------------------------------------------ *)
(** ** Furniture placement *)

(** [createFurnitureObjectOnCanvas(canvas, furniture, x, y)]: a group of
    the placeholder rectangle and the item's name, added, raised to the
    front ([canvas.bringObjectToFront(group)]). It returns the new group's
    reference with the scene. *)
Definition createFurnitureObjectOnCanvas (furniture : furniture_item) (x y : Q)
    (s : scene) : nat * scene :=
  let '(width, height) := furniture_size (f_dimensions furniture) in
  let grp := mkObj (SGroup (mkRect x y (inject_Z width) (inject_Z height)) (f_name furniture))
                   false true false None None None in
  let '(g, s1) := alloc grp s in
  (g, bringObjectToFront g (canvas_add g s1)).

(* ------------------------------------------------------------------ *)
(** ** The editor: React state, listener locals and the canvas *)

Inductive tool := TSelect | TWall | TRoom | TDimension | TFurniture.

Definition tool_eqb (a b : tool) : bool :=
  match a, b with
  | TSelect, TSelect | TWall, TWall | TRoom, TRoom
  | TDimension, TDimension | TFurniture, TFurniture => true
  | _, _ => false
  end.

(** [isDrawing], [startPoint], [selectedObject] and [contextMenu.target]
    are React state; [isDragging] and [dragStarted] are the locals of the
    listener effect, which start [false] each time the effect re-runs (see
    [step]); [currentWall], [currentRoom] and [dimensionStart] are the
    properties the listeners hang on the canvas. Listeners read the state
    as it was when the event arrived. *)
Record editor := mkEd {
  scn : scene;
  activeTool : tool;
  isDrawing : bool;
  startPoint : option point;
  isDragging : bool;
  dragStarted : bool;
  currentWall : option nat;
  currentRoom : option nat;
  dimensionStart : option point;
  selectedObject : option nat;
  contextTarget : option nat }.

Definition with_scene (s : scene) (e : editor) : editor :=
  mkEd s (activeTool e) (isDrawing e) (startPoint e) (isDragging e) (dragStarted e)
       (currentWall e) (currentRoom e) (dimensionStart e) (selectedObject e)
       (contextTarget e).

Definition with_gesture (drawing : bool) (sp : option point) (dragging started : bool)
    (wall room : option nat) (e : editor) : editor :=
  mkEd (scn e) (activeTool e) drawing sp dragging started wall room
       (dimensionStart e) (selectedObject e) (contextTarget e).

Definition with_dimensionStart (d : option point) (e : editor) : editor :=
  mkEd (scn e) (activeTool e) (isDrawing e) (startPoint e) (isDragging e) (dragStarted e)
       (currentWall e) (currentRoom e) d (selectedObject e) (contextTarget e).

Definition with_selected (o : option nat) (e : editor) : editor :=
  mkEd (scn e) (activeTool e) (isDrawing e) (startPoint e) (isDragging e) (dragStarted e)
       (currentWall e) (currentRoom e) (dimensionStart e) o (contextTarget e).

Definition with_context (o : option nat) (e : editor) : editor :=
  mkEd (scn e) (activeTool e) (isDrawing e) (startPoint e) (isDragging e) (dragStarted e)
       (currentWall e) (currentRoom e) (dimensionStart e) (selectedObject e) o.

(** The page's [setActiveTool(t)]: the canvas gets the new [activeTool]
    and the listener effect re-runs. *)
Definition with_tool (t : tool) (e : editor) : editor :=
  mkEd (scn e) t (isDrawing e) (startPoint e) false false
       (currentWall e) (currentRoom e) (dimensionStart e) (selectedObject e)
       (contextTarget e).

Definition init_editor : editor :=
  mkEd init_scene TSelect false None false false None None None None None.

(** [Math.round(Math.sqrt(dx*dx + dy*dy) / 20 * 10)] for the integer
    squared distances of snapped points: [round (sqrt D / 2)] is
    [(isqrt D + 1) / 2] when [D] is an integer. *)
Definition dimension_tenths (x1 y1 x2 y2 : Q) : Z :=
  ((Z.sqrt (Qfloor ((x2 - x1) * (x2 - x1) + (y2 - y1) * (y2 - y1))) + 1) / 2)%Z.

(** [addDimension(x1, y1, x2, y2)]: a line and its centred text. *)
Definition addDimension (x1 y1 x2 y2 : Q) (s : scene) : scene :=
  add_all [plain (SLine x1 y1 x2 y2);
           plain (SText ((x1 + x2) / 2) ((y1 + y2) / 2 - 10)
                        (feet_text (dimension_tenths x1 y1 x2 y2)))] s.

(** [wall.set({ x2, y2 })] *)
Definition set_line_end (x2 y2 : Q) (o : fobj) : fobj :=
  match o_shape o with
  | SLine x1 y1 _ _ => mkObj (SLine x1 y1 x2 y2) (isRoom o) (isFurniture o)
                            (isDimensionLabel o) (o_id o) (o_roomId o) (o_dimensionType o)
  | _ => o
  end.

(** [rect.set({ left, top, width, height })], also the geometry fabric
    gives an object it moves or scales. *)
Definition set_geometry (g : rect) (o : fobj) : fobj :=
  let sh := match o_shape o with
            | SRect _ => SRect g
            | SGroup _ lbl => SGroup g lbl
            | other => other
            end in
  mkObj sh (isRoom o) (isFurniture o) (isDimensionLabel o) (o_id o) (o_roomId o)
        (o_dimensionType o).

(** Advance widths in Arial (Liberation Sans on Linux), in thousandths of
    an em, of the characters of a room label ["Room N"]; every digit is 556
    wide. *)
Definition arial_width (c : ascii) : Z :=
  if Ascii.eqb c "R" then 722%Z
  else if Ascii.eqb c "o" then 556%Z
  else if Ascii.eqb c "m" then 833%Z
  else if Ascii.eqb c " " then 278%Z
  else if Ascii.eqb c "-" then 333%Z
  else 556%Z.

(** Width of a one-line text at [fontSize]: the sum of its advance widths. *)
Definition text_width (fontSize : Q) (txt : string) : Q :=
  fontSize * inject_Z (fold_right Z.add 0%Z (map arial_width (list_ascii_of_string txt)))
  / 1000.

(** [roomGroup.getBoundingRect()] of the group built in [mouse:up]. The
    group is placed at [left: rectLeft, top: rectTop] and is as large as
    the union of its two members' boxes: the rectangle with its 2px stroke,
    and the [IText] label centred at [rectLeft + rectWidth / 2],
    [rectTop + rectHeight / 2], with [fontSize = Math.min(rectWidth / 8, 16)],
    one line [fontSize * 1.13] high, its box grown by its default
    [strokeWidth] of 1 in both directions. *)
Definition room_group_bounds (g : rect) (label : string) : rect :=
  let fontSize := js_min (r_width g / 8) 16 in
  let tw := text_width fontSize label + 1 in
  let th := fontSize * (113 # 100) + 1 in
  let cx := r_left g + r_width g / 2 in
  let cy := r_top g + r_height g / 2 in
  let x0 := js_min (r_left g) (cx - tw / 2) in
  let x1 := js_max (r_left g + r_width g + 2) (cx + tw / 2) in
  let y0 := js_min (r_top g) (cy - th / 2) in
  let y1 := js_max (r_top g + r_height g + 2) (cy + th / 2) in
  mkRect (r_left g) (r_top g) (x1 - x0) (y1 - y0).

Definition geometry_of (sh : shape) : rect :=
  match sh with
  | SRect g | SGroup g _ => g
  | _ => mkRect 0 0 0 0
  end.

(** [mouse:down]. [ctx] is a right-click or a ctrl+left-click. *)
Definition mouse_down (ctx : bool) (target : option nat) (pointer : point)
    (e : editor) : editor :=
  let e0 := with_gesture (isDrawing e) (startPoint e) false false
                         (currentWall e) (currentRoom e) e in
  if ctx then
    match target with
    | Some t => with_context (Some t) e0
    | None => e0
    end
  else
    let snappedX := snap (px pointer) in
    let snappedY := snap (py pointer) in
    match activeTool e, target with
    | TWall, None =>
        let '(wall, s1) := alloc (plain (SLine snappedX snappedY snappedX snappedY)) (scn e0) in
        with_scene (canvas_add wall s1)
          (with_gesture true (Some (mkPoint snappedX snappedY)) false true
                        (Some wall) (currentRoom e0) e0)
    | TRoom, None =>
        with_gesture (isDrawing e0) (Some (mkPoint snappedX snappedY)) false false
                     (currentWall e0) (currentRoom e0) e0
    | TDimension, _ =>
        match dimensionStart e0 with
        | None => with_dimensionStart (Some (mkPoint snappedX snappedY)) e0
        | Some st =>
            with_dimensionStart None
              (with_scene (addDimension (px st) (py st) snappedX snappedY (scn e0)) e0)
        end
    | _, _ => e0
    end.

(** The working rectangle a room drag creates, [room_${Date.now()}]. *)
Definition working_room (st : point) (now : Z) : fobj :=
  mkObj (SRect (room_first_move_rect st)) true false false
        (Some ("room_" ++ Z_to_string now)%string) None None.

(** [mouse:move]; [now] is [Date.now()]. A move of a room drag with
    [isDragging] and [dragStarted] both [false] and no target creates a
    working rectangle and selects it ([setActiveObject] and
    [setSelectedObject]; it is already on top, so the [selection:created]
    listener's [bringObjectToFront] leaves the order as it is). With
    [isDrawing] still [false] in the listener of the first move, the resize
    starts at the next move. *)
Definition mouse_move (target : option nat) (pointer : point) (now : Z)
    (e : editor) : editor :=
  let drawing := isDrawing e in
  let e1 :=
    match startPoint e with
    | Some st =>
        if isDragging e then e else
        let e' := with_gesture (isDrawing e) (startPoint e) true (dragStarted e)
                               (currentWall e) (currentRoom e) e in
        match activeTool e, target with
        | TRoom, None =>
            if dragStarted e then e' else
            let '(r, s1) := alloc (working_room st now) (scn e') in
            with_selected (Some r)
              (with_scene (canvas_add r s1)
                 (with_gesture true (startPoint e') true true (currentWall e') (Some r) e'))
        | _, _ => e'
        end
    | None => e
    end in
  if negb drawing then e1 else
  match activeTool e with
  | TWall =>
      match currentWall e1 with
      | Some w =>
          with_scene (update_obj w (set_line_end (snap (px pointer)) (snap (py pointer))) (scn e1)) e1
      | None => e1
      end
  | TRoom =>
      match currentRoom e1, startPoint e1 with
      | Some r, Some st =>
          let snapped := mkPoint (snap (px pointer)) (snap (py pointer)) in
          let s1 := update_obj r (set_geometry (room_move_rect st pointer)) (scn e1) in
          let rid := match obj_at s1 r with Some o => o_id o | None => None end in
          with_scene (updateRoomDimensions rid st snapped s1) e1
      | _, _ => e1
      end
  | _ => e1
  end.

(** The [selection:created] listener: the object is selected and a room
    is brought to the front. *)
Definition selection_created (r : nat) (e : editor) : editor :=
  let e1 := with_selected (Some r) e in
  match obj_at (scn e) r with
  | Some o => if is_room_id (o_id o) then with_scene (bringObjectToFront r (scn e1)) e1 else e1
  | None => e1
  end.

(** Room finalisation in [mouse:up]: the working rectangle is removed and
    replaced by a group of the final rectangle and the label ["Room {n}"],
    and furniture is re-raised. [setActiveObject(roomGroup)] then fires
    [selection:created] (the working rectangle, the active object, is gone),
    whose listener brings the group to the front. The counter is bumped and
    the labels are recomputed from the group's bounds. *)
Definition finalize_room (room : nat) (now : Z) (e : editor) : editor :=
  match obj_at (scn e) room with
  | Some o =>
      let roomId := match o_id o with
                    | Some i => if String.eqb i EmptyString then ("room_" ++ Z_to_string now)%string else i
                    | None => ("room_" ++ Z_to_string now)%string
                    end in
      let finalRect := room_final_rect (geometry_of (o_shape o)) in
      let s1 := canvas_remove room (scn e) in
      let label := ("Room " ++ Z_to_string (roomCounter s1))%string in
      let '(grp, s2) := alloc (mkObj (SGroup finalRect label) true false false
                                     (Some roomId) None None) s1 in
      let e3 := selection_created grp (with_scene (raise_furniture (canvas_add grp s2)) e) in
      let s3 := scn e3 in
      let s4 := mkScene (heap s3) (objects s3) (roomLabels s3)
                        (roomCounter s3 + 1)%Z (next_ref s3) in
      let s5 := updatePersistentRoomDimensions (Some roomId) (room_group_bounds finalRect label) s4 in
      with_selected (Some grp) (with_scene s5 e3)
  | None => e
  end.

(** [mouse:up]. A release with no drag on the empty surface, with a tool
    other than select and dimension, calls [onObjectSelect("select")]: the
    page switches the tool to select once the listener is done. *)
Definition mouse_up (target : option nat) (now : Z) (e : editor) : editor :=
  let to_select :=
    negb (isDragging e) && bool_decide (target = None)
    && negb (tool_eqb (activeTool e) TSelect) && negb (tool_eqb (activeTool e) TDimension) in
  let e1 :=
    if to_select
    then match selectedObject e with Some _ => with_selected None e | None => e end
    else e in
  let e2 :=
    match activeTool e with
    | TWall =>
        if isDrawing e
        then with_gesture (isDrawing e1) (startPoint e1) (isDragging e1) (dragStarted e1)
                          None (currentRoom e1) e1
        else e1
    | TRoom =>
        if isDrawing e then
          let e' := match currentRoom e1, startPoint e1 with
                    | Some r, Some _ => finalize_room r now e1
                    | _, _ => e1
                    end in
          with_gesture (isDrawing e') (startPoint e') (isDragging e') (dragStarted e')
                       (currentWall e') None e'
        else e1
    | _ => e1
    end in
  let e3 := with_gesture false None (isDragging e2) (dragStarted e2)
                         (currentWall e2) (currentRoom e2) e2 in
  if to_select then with_tool TSelect e3 else e3.

Definition is_furniture_ref (s : scene) (r : nat) : bool :=
  match obj_at s r with Some o => isFurniture o | None => false end.

(** [handleBringToFront] on [contextMenu.target]. *)
Definition handleBringToFront (e : editor) : editor :=
  match contextTarget e with
  | Some t =>
      let s1 := bringObjectToFront t (scn e) in
      let s2 :=
        if is_furniture_ref s1 t then
          bringObjectToFront t
            (fold_left (fun s r => if is_furniture_ref s r && negb (Nat.eqb r t)
                                   then bringObjectToFront r s else s) (objects s1) s1)
        else s1 in
      with_scene s2 e
  | None => e
  end.

(** [handleSendToBack] on [contextMenu.target]. *)
Definition handleSendToBack (e : editor) : editor :=
  match contextTarget e with
  | Some t =>
      if is_furniture_ref (scn e) t then
        let furnitureObjects := filter (is_furniture_ref (scn e)) (objects (scn e)) in
        let s1 := match index_of t furnitureObjects with
                  | Some (S _) => sendObjectBackwards t (scn e)
                  | _ => scn e
                  end in
        with_scene (raise_furniture s1) e
      else with_scene (sendObjectToBack t (scn e)) e
  | None => e
  end.

(** The delete button: [handleDeleteObject]. *)
Definition delete_selected (e : editor) : editor :=
  match selectedObject e with
  | Some _ => with_selected None (with_scene (handleDeleteObject (selectedObject e) (scn e)) e)
  | None => e
  end.

(** fabric moves or scales object [r] to geometry [g], then the
    [object:moving] / [object:scaling] / [object:modified] listeners run
    with [bounds], the [getBoundingRect()] fabric computes for the object
    in its new place (its stroke, and for a group its label, included). *)
Definition object_transformed (r : nat) (g bounds : rect) (e : editor) : editor :=
  let s1 := update_obj r (set_geometry g) (scn e) in
  match obj_at s1 r with
  | Some o =>
      if is_room_id (o_id o)
      then with_scene (updatePersistentRoomDimensions (o_id o) bounds s1) e
      else with_scene s1 e
  | None => with_scene s1 e
  end.

Inductive event :=
| MouseDown (ctx : bool) (target : option nat) (pointer : point)
| MouseMove (target : option nat) (pointer : point) (now : Z)
| MouseUp (target : option nat) (now : Z)
| DropFurniture (item : furniture_item) (pointer : point)
| SelectionCreated (r : nat)
| BringToFront
| SendToBack
| DeleteButton
| Transform (r : nat) (g bounds : rect)
| ClearCanvas
| SelectTool (t : tool).

(** The listeners and the page's handlers. A drop runs
    [createFurnitureObjectOnCanvas], whose [setActiveObject(group)] fires
    the selection listeners: the group becomes [selectedObject]. The page's
    clear button ([handleClear]) switches to the select tool and clears the
    canvas; [canvas.clear()] discards the active object, and the
    [selection:cleared] listener empties [selectedObject]. *)
Definition dispatch (e : editor) (ev : event) : editor :=
  match ev with
  | MouseDown ctx t p => mouse_down ctx t p e
  | MouseMove t p now => mouse_move t p now e
  | MouseUp t now => mouse_up t now e
  | DropFurniture item p =>
      let '(g, s1) := createFurnitureObjectOnCanvas item (snap (px p)) (snap (py p)) (scn e) in
      with_selected (Some g) (with_scene s1 e)
  | SelectionCreated r => selection_created r e
  | BringToFront => handleBringToFront e
  | SendToBack => handleSendToBack e
  | DeleteButton => delete_selected e
  | Transform r g b => object_transformed r g b e
  | ClearCanvas => with_tool TSelect (with_selected None (with_scene (clearCanvas (scn e)) e))
  | SelectTool t => with_tool t e
  end.

Definition has_point (p : option point) : bool :=
  match p with Some _ => true | None => false end.

(** Whether the listener effect's dependencies [activeTool], [isDrawing],
    [startPoint] and [selectedObject] are the same in two states. A
    selection change also reaches the page through [onObjectSelect], which
    re-renders it and hands the canvas a new [onObjectSelect], another
    dependency. [startPoint] is compared by presence only: a press of the
    wall or room tool stores a fresh object, see [press_sets_startPoint]. *)
Definition effect_deps_eqb (e e' : editor) : bool :=
  tool_eqb (activeTool e) (activeTool e') && Bool.eqb (isDrawing e) (isDrawing e')
  && Bool.eqb (has_point (startPoint e)) (has_point (startPoint e'))
  && bool_decide (selectedObject e = selectedObject e').

(** [setStartPoint({ x: snappedX, y: snappedY })] in [mouse:down]. *)
Definition press_sets_startPoint (ev : event) (e : editor) : bool :=
  match ev with
  | MouseDown false None _ => tool_eqb (activeTool e) TWall || tool_eqb (activeTool e) TRoom
  | _ => false
  end.

(** One event. When it changed a dependency of the listener effect, React
    re-renders and the effect re-runs: the listeners are registered anew,
    with [isDragging] and [dragStarted] back to [false]. *)
Definition step (e : editor) (ev : event) : editor :=
  let e' := dispatch e ev in
  if press_sets_startPoint ev e || negb (effect_deps_eqb e e')
  then with_gesture (isDrawing e') (startPoint e') false false
                    (currentWall e') (currentRoom e') e'
  else e'.

Definition run (evs : list event) (e : editor) : editor := fold_left step evs e.

(* ------------------------------------------------------------------ *)
(** ** Layering *)

(** Draw order as objects, back to front. *)
Definition drawn (s : scene) : list fobj := omap (obj_at s) (objects s).

(** Every furniture object lies above every room object. *)
Fixpoint furniture_above_rooms (l : list fobj) : bool :=
  match l with
  | [] => true
  | o :: rest =>
      (if isFurniture o then negb (existsb isRoom rest) else true)
      && furniture_above_rooms rest
  end.

Definition count_rooms (s : scene) : nat := List.length (filter isRoom (drawn s)).

(* ------------------------------------------------------------------ *)
(** ** FloorplanAI.analyzeFloorplan *)

Inductive element_type := ERoom | EWall | EDoor | EWindow.

Definition element_type_name (t : element_type) : string :=
  match t with ERoom => "room" | EWall => "wall" | EDoor => "door" | EWindow => "window" end.

Record coordinates := mkCoords { cx : Q; cy : Q; cw : Q; ch : Q }.

Record FloorplanElement := mkElement {
  el_type : element_type;
  el_coordinates : coordinates;
  el_label : option string;
  el_confidence : Q }.

(** [scale] is a plain number or, from [estimateScale], [Math.sqrt(q)]. *)
Inductive scale_value := ScaleNum (q : Q) | ScaleSqrt (q : Q).

Record analysis_data := mkData {
  elements : list FloorplanElement;
  dim_width : Q;
  dim_height : Q;
  scale : scale_value }.

Record FloorplanAnalysisResult := mkResult {
  success : bool;
  data : option analysis_data;
  error : option string }.

Record image := mkImage { naturalWidth : Q; naturalHeight : Q }.

(** One result of the object-detection model. *)
Record detection := mkDetection {
  det_label : string; xmin : Q; ymin : Q; xmax : Q; ymax : Q; score : Q }.

Inductive outcome (A : Type) := Ok (a : A) | Throws (msg : string).
Arguments Ok {A} a.
Arguments Throws {A} msg.

(** What the browser and the two models answer for one analysis:
    the PDF rendering, [loadImage] ([None] when [img.onerror] rejects
    with an event), [initializeModels()] (which catches its own errors),
    and the two model invocations. *)
Record ai_env := mkEnv {
  env_pdf_render : outcome unit;
  env_load_image : option image;
  env_models_ready : bool;
  env_detect : outcome (list detection);
  env_segment : outcome unit }.

(** [createSyntheticRooms(image)] *)
Definition createSyntheticRooms (img : image) : list FloorplanElement :=
  let width := naturalWidth img in
  let height := naturalHeight img in
  [ mkElement ERoom (mkCoords (width * (1 # 10)) (height * (1 # 10))
                              (width * (35 # 100)) (height * (4 # 10)))
              (Some "Living Room") (8 # 10);
    mkElement ERoom (mkCoords (width * (55 # 100)) (height * (1 # 10))
                              (width * (35 # 100)) (height * (4 # 10)))
              (Some "Kitchen") (8 # 10);
    mkElement ERoom (mkCoords (width * (1 # 10)) (height * (6 # 10))
                              (width * (8 # 10)) (width * (3 # 10)))
              (Some "Bedroom") (8 # 10) ].

Definition ascii_lower (c : ascii) : ascii :=
  let n := nat_of_ascii c in
  if (65 <=? n)%nat && (n <=? 90)%nat then ascii_of_nat (n + 32) else c.

Fixpoint string_lower (s : string) : string :=
  match s with
  | EmptyString => EmptyString
  | String c s' => String (ascii_lower c) (string_lower s')
  end.

(** [s.includes(sub)] *)
Definition includes (s sub : string) : bool :=
  match String.index 0 sub s with Some _ => true | None => false end.

(** [mapLabelToType(label)] *)
Definition mapLabelToType (label : string) : element_type :=
  let lowerLabel := string_lower label in
  if includes lowerLabel "door" then EDoor
  else if includes lowerLabel "window" then EWindow
  else if includes lowerLabel "wall" then EWall
  else ERoom.

Definition is_room_element (el : FloorplanElement) : bool :=
  match el_type el with ERoom => true | _ => false end.

(** [processDetectionResults(objectResults, segmentationResults, image)];
    the segmentation results are not read. *)
Definition processDetectionResults (objectResults : list detection) (img : image)
    : list FloorplanElement :=
  let detected :=
    List.filter (fun el => if Qlt_le_dec (3 # 10) (el_confidence el) then true else false)
      (imap (fun index d =>
         let t := mapLabelToType (det_label d) in
         mkElement t (mkCoords (xmin d) (ymin d) (xmax d - xmin d) (ymax d - ymin d))
                   (Some (element_type_name t ++ " " ++ Z_to_string (Z.of_nat index + 1))%string)
                   (score d)) objectResults) in
  if Nat.eqb (List.length (List.filter is_room_element detected)) 0
  then detected ++ createSyntheticRooms img
  else detected.

(** [estimateScale(image, elements)] *)
Definition estimateScale (img : image) (els : list FloorplanElement) : scale_value :=
  let roomElements := List.filter is_room_element els in
  match roomElements with
  | [] => ScaleNum 20
  | _ =>
      let totalRoomArea :=
        fold_left (fun sum r => sum + cw (el_coordinates r) * ch (el_coordinates r))
                  roomElements 0 in
      let avgRoomSizePixels := totalRoomArea / inject_Z (Z.of_nat (List.length roomElements)) in
      ScaleSqrt (avgRoomSizePixels / 200)
  end.

Definition synthetic_data (img : image) : analysis_data :=
  mkData (createSyntheticRooms img) (naturalWidth img) (naturalHeight img) (ScaleNum 20).

(** [performAnalysis(image, imageUrl)]: any exception falls back to the
    synthetic layout. *)
Definition performAnalysis (env : ai_env) (img : image) : analysis_data :=
  match env_detect env with
  | Throws _ => synthetic_data img
  | Ok objectResults =>
      match env_segment env with
      | Throws _ => synthetic_data img
      | Ok _ =>
          let els := processDetectionResults objectResults img in
          mkData els (naturalWidth img) (naturalHeight img) (estimateScale img els)
      end
  end.

(** [convertToImage(file)]: the error it throws, if any. *)
Definition convertToImage (file_type : string) (env : ai_env) : outcome unit :=
  if String.prefix "image/" file_type then Ok tt
  else if String.eqb file_type "application/pdf" then
    match env_pdf_render env with
    | Ok _ => Ok tt
    | Throws _ => Throws "Failed to process PDF. Please upload a JPEG or PNG."
    end
  else Throws "Unsupported file type".

(** [FloorplanAI.analyzeFloorplan(file)] *)
Definition analyzeFloorplan (file_type : string) (env : ai_env) : FloorplanAnalysisResult :=
  match convertToImage file_type env with
  | Throws m => mkResult false None (Some m)
  | Ok _ =>
      match env_load_image env with
      | None => mkResult false None (Some "Unknown error occurred")
      | Some img =>
          if env_models_ready env
          then mkResult true (Some (performAnalysis env img)) None
          else mkResult true (Some (synthetic_data img)) None
      end
  end.

(* ------------------------------------------------------------------ *)
(** ** fileValidator.validateFile and the upload dialog *)

(** An uploaded [File]: its [size], [name] and [type], the bytes of
    [file.slice(0, 1024)], and what the browser's image decoder reports
    for it ([img.width], [img.height], or [None] on [onerror] or when the
    5 s timer resolves first). *)
Record upload_file := mkFile {
  file_size : Z;
  file_name : string;
  file_type : string;
  file_head : list Z;
  image_decode : option (Z * Z) }.

Record FileValidationResult := mkValidation {
  isValid : bool;
  verror : option string;
  sanitizedFile : option upload_file }.

Definition sig_jpeg : list Z := [255; 216; 255]%Z.
Definition sig_png : list Z := [137; 80; 78; 71; 13; 10; 26; 10]%Z.
Definition sig_pdf : list Z := [37; 80; 68; 70]%Z.
Definition sig_jpegExif : list Z := [255; 216; 255; 225]%Z.
Definition sig_jpegJfif : list Z := [255; 216; 255; 224]%Z.

Definition ALLOWED_MIME_TYPES : list string :=
  ["image/jpeg"; "image/jpg"; "image/png"; "application/pdf"].

Definition MAX_FILE_SIZE : Z := (10 * 1024 * 1024)%Z.
Definition MAX_FILENAME_LENGTH : nat := 255.

(** [checkSignature(bytes, signature)] *)
Fixpoint checkSignature (bytes signature : list Z) : bool :=
  match signature, bytes with
  | [], _ => true
  | s :: sig', b :: bytes' => Z.eqb b s && checkSignature bytes' sig'
  | _ :: _, [] => false
  end.

(** [validateMagicNumber(file)] on [file.slice(0, 16)]. *)
Definition validateMagicNumber (f : upload_file) : bool :=
  let bytes := take 16 (file_head f) in
  let isJpeg := checkSignature bytes sig_jpeg || checkSignature bytes sig_jpegExif
                || checkSignature bytes sig_jpegJfif in
  let isPng := checkSignature bytes sig_png in
  let isPdf := checkSignature bytes sig_pdf in
  if String.eqb (file_type f) "image/jpeg" then isJpeg
  else if String.eqb (file_type f) "image/jpg" then isJpeg
  else if String.eqb (file_type f) "image/png" then isPng
  else if String.eqb (file_type f) "application/pdf" then isPdf
  else false.

(** [file.slice(0, 1024).text()]: bytes read as characters (a byte that
    is not ASCII decodes to a replacement character, here byte 255). *)
Fixpoint bytes_text (bs : list Z) : string :=
  match bs with
  | [] => EmptyString
  | b :: bs' =>
      String (if (0 <=? b)%Z && (b <? 128)%Z then ascii_of_nat (Z.to_nat b)
              else ascii_of_nat 255) (bytes_text bs')
  end.

(** [validateFileContent(file)] *)
Definition validateFileContent (f : upload_file) : bool :=
  if String.prefix "image/" (file_type f) then
    match image_decode f with
    | Some (w, h) => (0 <? w)%Z && (0 <? h)%Z && (w <=? 10000)%Z && (h <=? 10000)%Z
    | None => false
    end
  else if String.eqb (file_type f) "application/pdf" then
    let chunk := bytes_text (take 1024 (file_head f)) in
    includes chunk "%PDF-" && includes chunk (String (ascii_of_nat 10) EmptyString)
  else false.

(** The characters removed by the first [replace]: the control
    characters 0x00-0x1f and < > : double-quote / backslash | ? and star. *)
Definition dangerous_char (c : ascii) : bool :=
  let n := nat_of_ascii c in
  (n <? 32)%nat || existsb (fun m => Nat.eqb n m) [60; 62; 58; 34; 47; 92; 124; 63; 42]%nat.

(** [\s] on Latin-1 characters. *)
Definition js_space (c : ascii) : bool :=
  let n := nat_of_ascii c in
  existsb (fun m => Nat.eqb n m) [9; 10; 11; 12; 13; 32; 160]%nat.

Definition is_dot (c : ascii) : bool := Nat.eqb (nat_of_ascii c) 46.

Fixpoint drop_while (p : ascii -> bool) (l : list ascii) : list ascii :=
  match l with
  | [] => []
  | c :: l' => if p c then drop_while p l' else l
  end.

(** [.replace(/\s+/g, '_')]: each run of white space becomes one [_]. *)
Fixpoint collapse_spaces_go (in_run : bool) (l : list ascii) : list ascii :=
  match l with
  | [] => []
  | c :: l' =>
      if js_space c then
        if in_run then collapse_spaces_go true l' else "_"%char :: collapse_spaces_go true l'
      else c :: collapse_spaces_go false l'
  end.

Definition collapse_spaces (l : list ascii) : list ascii := collapse_spaces_go false l.

(** [sanitizeFilename(filename)] *)
Definition sanitizeFilename (filename : string) : string :=
  if String.eqb filename EmptyString || (MAX_FILENAME_LENGTH <? String.length filename)%nat then EmptyString
  else
    let l0 := list_ascii_of_string filename in
    let l1 := List.filter (fun c => negb (dangerous_char c)) l0 in
    let l2 := drop_while is_dot l1 in
    let l3 := rev (drop_while is_dot (rev l2)) in
    let l4 := collapse_spaces l3 in
    let l5 := take MAX_FILENAME_LENGTH l4 in
    let l6 := rev (drop_while js_space (rev (drop_while js_space l5))) in
    let sanitized := string_of_list_ascii l6 in
    if String.eqb sanitized EmptyString || String.eqb sanitized "." then EmptyString else sanitized.

Definition invalid (msg : string) : FileValidationResult := mkValidation false (Some msg) None.

(** [validateFile(file)] *)
Definition validateFile (f : upload_file) : FileValidationResult :=
  if (MAX_FILE_SIZE <? file_size f)%Z then invalid "File size exceeds 10MB limit"
  else if (file_size f =? 0)%Z then invalid "File is empty"
  else
    let sanitizedName := sanitizeFilename (file_name f) in
    if String.eqb sanitizedName EmptyString then invalid "Invalid filename"
    else if negb (existsb (String.eqb (file_type f)) ALLOWED_MIME_TYPES) then
      invalid "Invalid file type. Only JPEG, PNG, and PDF files are allowed"
    else if negb (validateMagicNumber f) then
      invalid "File content does not match file extension. Possible security risk detected."
    else if negb (validateFileContent f) then invalid "File content validation failed"
    else
      let sf := if String.eqb sanitizedName (file_name f) then f
                else mkFile (file_size f) sanitizedName (file_type f) (file_head f) (image_decode f) in
      mkValidation true None (Some sf).

(** The upload dialog's state: the selected [file] and the last toast. *)
Record upload_state := mkUpload { selected_file : option upload_file; last_toast : option string }.

(** [handleFileSelect]: a rejected file is reported and not selected. *)
Definition handleFileSelect (f : upload_file) (st : upload_state) : upload_state :=
  let r := validateFile f in
  if negb (isValid r) then
    mkUpload (selected_file st)
             (Some (match verror r with Some m => m | None => "File validation failed" end))
  else
    let sf := match sanitizedFile r with Some x => x | None => f end in
    mkUpload (Some sf) (Some "File validated and selected successfully").

(* ------------------------------------------------------------------ *)
(** ** dataValidator.validateFloorplanData and the analysis step of the upload dialog *)

(** JavaScript numbers as they reach the validator: a rational, the
    square root of a non-negative rational ([Math.sqrt] in
    [estimateScale]), [NaN], or an infinity. *)
#[warnings="-register-all"]
Inductive jsnum := JQ (q : Q) | JSqrt (q : Q) | JNaN | JInf (positive : bool).

(** JavaScript values (JSON-like: no functions or getters). *)
#[warnings="-register-all"]
Inductive jsval :=
| JUndefined
| JNull
| JBool (b : bool)
| JNumber (n : jsnum)
| JString (s : string)
| JArray (items : list jsval)
| JObject (fields : list (string * jsval)).

(** [x < y] on rationals. *)
Definition Qlt_bool (x y : Q) : bool := negb (Qle_bool y x).

(** [obj.key]: an own property of a plain object, [undefined] otherwise. *)
Definition js_get (v : jsval) (key : string) : jsval :=
  match v with
  | JObject fs =>
      match List.find (fun kv => String.eqb (fst kv) key) fs with
      | Some (_, x) => x
      | None => JUndefined
      end
  | _ => JUndefined
  end.

Definition num_truthy (n : jsnum) : bool :=
  match n with
  | JQ q => negb (Qeq_bool q 0)
  | JSqrt q => Qlt_bool 0 q
  | JNaN => false
  | JInf _ => true
  end.

(** [!!v] *)
Definition js_truthy (v : jsval) : bool :=
  match v with
  | JUndefined | JNull => false
  | JBool b => b
  | JNumber n => num_truthy n
  | JString s => negb (String.eqb s EmptyString)
  | JArray _ | JObject _ => true
  end.

(** [typeof v === 'object'] *)
Definition typeof_object (v : jsval) : bool :=
  match v with JNull | JArray _ | JObject _ => true | _ => false end.

(** [num < bound] and [num > bound] for a finite number. *)
Definition num_lt (n : jsnum) (b : Q) : bool :=
  match n with
  | JQ q => Qlt_bool q b
  | JSqrt q => if Qle_bool b 0 then false else Qlt_bool q (b * b)
  | _ => false
  end.

Definition num_gt (n : jsnum) (b : Q) : bool :=
  match n with
  | JQ q => Qlt_bool b q
  | JSqrt q => if Qlt_bool b 0 then true else Qlt_bool (b * b) q
  | _ => false
  end.

Section DataValidator.
(** The parts of the host the validator calls and that are not modelled
    here: [Number(s)] on a string and on an array, and
    [DOMPurify.sanitize(text, { ALLOWED_TAGS: [] })]. *)
Context (StringToNumber : string -> jsnum) (ArrayToNumber : list jsval -> jsnum)
        (purify : string -> string).

(** [Number(value)] *)
Definition js_Number (v : jsval) : jsnum :=
  match v with
  | JUndefined => JNaN
  | JNull => JQ 0
  | JBool b => JQ (if b then 1 else 0)
  | JNumber n => match n with JSqrt q => if Qlt_bool q 0 then JNaN else n | _ => n end
  | JString s => StringToNumber s
  | JArray items => ArrayToNumber items
  | JObject _ => JNaN
  end.

(** [sanitizeNumber(value, min, max)] *)
Definition sanitizeNumber (value : jsval) (min max : Q) : option jsnum :=
  let num := js_Number value in
  match num with
  | JNaN | JInf _ => None
  | _ => if num_lt num min || num_gt num max then None else Some num
  end.

Definition js_trim (l : list ascii) : list ascii :=
  rev (drop_while js_space (rev (drop_while js_space l))).

(** [sanitizeText(text, maxLength)] *)
Definition sanitizeText (text : jsval) (maxLength : nat) : option string :=
  match text with
  | JString s =>
      let sanitized := purify s in
      if Nat.eqb (String.length sanitized) 0 || (maxLength <? String.length sanitized)%nat
      then None
      else Some (string_of_list_ascii (js_trim (list_ascii_of_string sanitized)))
  | _ => None
  end.

(** [Math.max(0, Math.min(1, c))] *)
Definition clamp01 (n : jsnum) : jsnum :=
  match n with
  | JQ q => JQ (Qmax 0 (Qmin 1 q))
  | JSqrt q => if Qlt_bool q 0 then JNaN else if Qlt_bool 1 q then JQ 1 else JSqrt q
  | JNaN => JNaN
  | JInf pos => JQ (if pos then 1 else 0)
  end.

(** The validated element: [label] is absent, or set to the result of
    [sanitizeText] (possibly [null]); [confidence] is absent or set. *)
Record validated_element := mkVElement {
  ve_type : string;
  ve_coordinates : list jsnum;
  ve_label : option (option string);
  ve_confidence : option jsnum }.

Definition validTypes : list string := ["room"; "wall"; "door"; "window"].

(** [validateFloorplanElement(element)] *)
Definition validateFloorplanElement (element : jsval) : option validated_element :=
  if negb (js_truthy element) || negb (typeof_object element) then None else
  match js_get element "type" with
  | JString t =>
      if negb (existsb (String.eqb t) validTypes) then None else
      match js_get element "coordinates" with
      | JArray cs =>
          let coordinates := omap (fun c => sanitizeNumber c (-10000) 10000) cs in
          if (List.length coordinates <? 4)%nat then None else
          let lbl := js_get element "label" in
          Some (mkVElement t (take 8 coordinates)
                  (if js_truthy lbl then
                     match lbl with JString _ => Some (sanitizeText lbl 100) | _ => None end
                   else None)
                  (match js_get element "confidence" with
                   | JNumber n => Some (clamp01 n)
                   | _ => None
                   end))
      | _ => None
      end
  | _ => None
  end.

Record validated_data := mkVData {
  vd_elements : list validated_element;
  vd_width : jsnum;
  vd_height : jsnum;
  vd_scale : jsnum }.

(** [validateFloorplanData(data)] *)
Definition validateFloorplanData (data : jsval) : option validated_data :=
  if negb (js_truthy data) || negb (typeof_object data) then None else
  let els := match js_get data "elements" with
             | JArray es => omap validateFloorplanElement es
             | _ => []
             end in
  let dims := js_get data "dimensions" in
  let '(w, h) :=
    if js_truthy dims && typeof_object dims then
      match sanitizeNumber (js_get dims "width") 100 10000,
            sanitizeNumber (js_get dims "height") 100 10000 with
      | Some w, Some h => if num_truthy w && num_truthy h then (w, h) else (JQ 0, JQ 0)
      | _, _ => (JQ 0, JQ 0)
      end
    else (JQ 0, JQ 0) in
  let sc := match js_get data "scale" with
            | JNumber n =>
                match sanitizeNumber (JNumber n) 1 1000 with
                | Some m => if num_truthy m then m else JQ 20
                | None => JQ 20
                end
            | _ => JQ 20
            end in
  Some (mkVData els w h sc).

End DataValidator.

(** The object [FloorplanAI.analyzeFloorplan] returns as [data], as a
    JavaScript value. *)
Definition scale_number (s : scale_value) : jsnum :=
  match s with ScaleNum q => JQ q | ScaleSqrt q => if Qlt_bool q 0 then JNaN else JSqrt q end.

Definition element_value (el : FloorplanElement) : jsval :=
  JObject (app [("type", JString (element_type_name (el_type el)));
                ("coordinates", JObject [("x", JNumber (JQ (cx (el_coordinates el))));
                                         ("y", JNumber (JQ (cy (el_coordinates el))));
                                         ("width", JNumber (JQ (cw (el_coordinates el))));
                                         ("height", JNumber (JQ (ch (el_coordinates el))))])]
           (app (match el_label el with Some l => [("label", JString l)] | None => [] end)
                [("confidence", JNumber (JQ (el_confidence el)))]))%string.

Definition analysis_value (d : analysis_data) : jsval :=
  JObject [("elements", JArray (map element_value (elements d)));
           ("dimensions", JObject [("width", JNumber (JQ (dim_width d)));
                                   ("height", JNumber (JQ (dim_height d)))]);
           ("scale", JNumber (scale_number (scale d)))]%string.

(** The state of the upload dialog after [handleAnalyze] has run to its
    end: the selected [file], the [isAnalyzing] and [progress] state, the
    last toast, the data handed to [onFloorplanAnalyzed], and whether
    [onClose] was called. *)
Record upload_dialog := mkDialog {
  dlg_file : option upload_file;
  dlg_isAnalyzing : bool;
  dlg_progress : Z;
  dlg_toast : option string;
  dlg_analyzed : option validated_data;
  dlg_closed : bool }.

(** [handleAnalyze], once [analyzeFloorplan] has resolved and the
    [finally] block has run. *)
Definition handleAnalyze (StringToNumber : string -> jsnum) (ArrayToNumber : list jsval -> jsnum)
    (purify : string -> string) (env : ai_env) (st : upload_dialog) : upload_dialog :=
  match dlg_file st with
  | None => mkDialog (dlg_file st) (dlg_isAnalyzing st) (dlg_progress st)
                     (Some "Please select a file first") (dlg_analyzed st) (dlg_closed st)
  | Some f =>
      let floorplanData := analyzeFloorplan (file_type f) env in
      if success floorplanData then
        let raw := match data floorplanData with Some d => analysis_value d | None => JUndefined end in
        match validateFloorplanData StringToNumber ArrayToNumber purify raw with
        | Some validatedData =>
            mkDialog (dlg_file st) false 0 (Some "Floorplan analyzed and validated successfully!")
                     (Some validatedData) true
        | None =>
            mkDialog (dlg_file st) false 0 (Some "Floorplan analysis produced invalid data")
                     (dlg_analyzed st) (dlg_closed st)
        end
      else
        mkDialog (dlg_file st) false 0
                 (Some (match error floorplanData with
                        | Some m => if String.eqb m EmptyString then "Failed to analyze floorplan" else m
                        | None => "Failed to analyze floorplan"
                        end))
                 (dlg_analyzed st) (dlg_closed st)
  end%string.

(* ------------------------------------------------------------------ *)
(** ** Derived predicates *)

(** A file name as [sanitizeFilename] leaves it: no dangerous character
    and no whitespace, at most [MAX_FILENAME_LENGTH] characters, and no
    leading or trailing dot. *)
Definition clean_filename (l : list ascii) : Prop :=
  Forall (fun c => dangerous_char c = false /\ js_space c = false) l /\
  (List.length l <= MAX_FILENAME_LENGTH)%nat /\
  match l with c :: _ => is_dot c = false | [] => True end /\
  match last l with Some c => is_dot c = false | None => True end.

(** A rectangle of a detected element lies within the image. *)
Definition inside_image (img : image) (el : FloorplanElement) : Prop :=
  let c := el_coordinates el in
  0 <= cx c /\ 0 <= cy c /\ 0 <= cw c /\ 0 <= ch c /\
  cx c + cw c <= naturalWidth img /\ cy c + ch c <= naturalHeight img.


(* ================================================================== *)
(** ** Invariant, fixtures and scenarios *)

Definition drag_in_progress : editor :=
  run [SelectTool TRoom; MouseDown false None (mkPoint 200 200);
       MouseMove None (mkPoint 210 205) 1000%Z] init_editor.

Definition room_gesture : list event :=
  [SelectTool TRoom; MouseDown false None (mkPoint 200 200);
   MouseMove None (mkPoint 210 205) 1000%Z; MouseMove None (mkPoint 420 340) 1001%Z].

Definition starts_non_digit (l : list ascii) : Prop :=
  match l with c :: _ => is_digit c = false | [] => True end.

(** The shape of a parseable dimension string: a run of digits, then
    separators holding no digit, no [x] and no line break, the letter [x],
    then separators holding no digit and no line break, the second run of
    digits, and anything not starting with a digit. *)
Definition dims_shape (s : list ascii) (d1 d2 : list ascii) : Prop :=
  exists u1 u2 u3,
    s = d1 ++ u1 ++ "x"%char :: u2 ++ d2 ++ u3 /\
    d1 <> [] /\ d2 <> [] /\
    Forall (fun c => is_digit c = true) d1 /\ Forall (fun c => is_digit c = true) d2 /\
    Forall (fun c => is_digit c = false /\ Ascii.eqb c "x" = false
                     /\ is_line_terminator c = false) u1 /\
    Forall (fun c => is_digit c = false /\ is_line_terminator c = false) u2 /\
    starts_non_digit u3.

Definition dq : string := String "034"%char EmptyString.

(** The dimensions of the catalog's sofa, [84" x 36"]. *)
Definition sofa_dims : string := ("84" ++ dq ++ " x 36" ++ dq)%string.

Definition sofa : furniture_item := mkItem "sofa" "Sofa" "Living Room" sofa_dims "bg-blue-200".

(** The draw order has no repetitions and only allocated references;
    each registered label pair is made of allocated dimension labels of
    that room; and every dimension label of a room on the surface is one
    of the pair registered for the room. *)
Definition wf_scene (s : scene) : Prop :=
  List.NoDup (objects s) /\
  (forall x, In x (objects s) -> (x < next_ref s)%nat) /\
  (forall id w h, roomLabels s !! id = Some (w, h) ->
     (w < next_ref s)%nat /\ (h < next_ref s)%nat /\
     is_label_of id s w = true /\ is_label_of id s h = true) /\
  (forall id x, In x (objects s) -> is_label_of id s x = true ->
     exists w h, roomLabels s !! id = Some (w, h) /\ (x = w \/ x = h)).

Definition keeps_tags (f : fobj -> fobj) : Prop :=
  forall o, isDimensionLabel (f o) = isDimensionLabel o /\ o_roomId (f o) = o_roomId o.

Definition room_drawn : list event := room_gesture ++ [MouseUp None 1002%Z].


Definition room_then_sofa : list event :=
  room_drawn ++ [DropFurniture sofa (mkPoint 500 500)].

Definition sofa_then_room : list event :=
  DropFurniture sofa (mkPoint 500 500) :: room_drawn.

Definition click_room : list event :=
  [SelectTool TSelect; MouseDown false (Some 106%nat) (mkPoint 250 250);
   SelectionCreated 106%nat; MouseUp (Some 106%nat) 1003%Z].

Definition context_bring_room : list event :=
  [SelectTool TSelect; MouseDown true (Some 106%nat) (mkPoint 250 250); BringToFront].

Definition failing_env : ai_env :=
  mkEnv (Ok tt) (Some (mkImage 1000 800)) false (Ok []) (Ok tt).

Definition oversized_png : upload_file :=
  mkFile 20000000%Z "plan.png" "image/png" sig_png (Some (800%Z, 600%Z)).

Definition plan_png : upload_file :=
  mkFile 1000%Z "my plan.png" "image/png" (sig_png ++ [0%Z]) (Some (800%Z, 600%Z)).

Definition detect_env : ai_env :=
  mkEnv (Ok tt) (Some (mkImage 1000 800)) true
        (Ok [mkDetection "Door" 10 10 50 90 (9 # 10)]) (Ok tt).

Definition no_number_string (_ : string) : jsnum := JNaN.
Definition no_number_array (_ : list jsval) : jsnum := JNaN.

Definition dialog_with_plan : upload_dialog := mkDialog (Some plan_png) false 0 None None false.

Definition furniture_obj (name : string) : fobj :=
  mkObj (SGroup (mkRect 0 0 40 40) name) false true false None None None.
Definition room_obj (id : string) : fobj :=
  mkObj (SGroup (mkRect 0 0 100 100) "Room") true false false (Some id) None None.

(** A sofa (1) under a room (0), a chair (2) above it and a second room (3) on top. *)
Definition layered_scene : scene :=
  mkScene (<[0%nat := room_obj "room_1"]> (<[1%nat := furniture_obj "Sofa"]>
          (<[2%nat := furniture_obj "Chair"]> (<[3%nat := room_obj "room_2"]> ∅))))
          [1%nat; 0%nat; 2%nat; 3%nat] ∅ 3%Z 4%nat.

Definition layered_editor (target : nat) : editor :=
  mkEd layered_scene TSelect false None false false None None None None (Some target).

(** * Properties *)

(* ------------------------------------------------------------------ *)
(** ** An effect re-run only resets the listener locals *)

Lemma step_dispatch (e : editor) (ev : event) :
  scn (step e ev) = scn (dispatch e ev) /\
  activeTool (step e ev) = activeTool (dispatch e ev) /\
  isDrawing (step e ev) = isDrawing (dispatch e ev) /\
  startPoint (step e ev) = startPoint (dispatch e ev) /\
  currentWall (step e ev) = currentWall (dispatch e ev) /\
  currentRoom (step e ev) = currentRoom (dispatch e ev) /\
  dimensionStart (step e ev) = dimensionStart (dispatch e ev) /\
  selectedObject (step e ev) = selectedObject (dispatch e ev) /\
  contextTarget (step e ev) = contextTarget (dispatch e ev).
Proof. unfold step. destruct (_ || _); repeat split. Qed.

Lemma scn_step (e : editor) (ev : event) : scn (step e ev) = scn (dispatch e ev).
Proof. apply step_dispatch. Qed.

(* ------------------------------------------------------------------ *)
(** ** Snapping *)

Lemma js_round_bounds (x : Q) :
  inject_Z (js_round x) <= x + (1 # 2) /\ x + (1 # 2) < inject_Z (js_round x) + 1.
Proof.
  unfold js_round. split; [apply Qfloor_le |].
  pose proof (Qlt_floor (x + (1 # 2))) as H.
  rewrite inject_Z_plus in H. exact H.
Qed.

Lemma snapToGrid_window (c s : Q) : 0 < s ->
  - ((1 # 2) * s) <= c - snapToGrid c s /\ c - snapToGrid c s < (1 # 2) * s.
Proof.
  intros Hs. unfold snapToGrid.
  destruct (js_round_bounds (c / s)) as [H1 H2].
  set (n := inject_Z (js_round (c / s))) in *.
  assert (E : (c / s + (1 # 2)) * s == c + (1 # 2) * s) by (field; lra).
  assert (A : n * s <= c + (1 # 2) * s).
  { rewrite <- E. apply Qmult_le_compat_r; lra. }
  assert (B : c + (1 # 2) * s < (n + 1) * s).
  { rewrite <- E. apply Qmult_lt_compat_r; lra. }
  clearbody n. clear H1 H2 E. nra.
Qed.

Lemma snapToGrid_far (c s : Q) (k : Z) : 0 < s ->
  inject_Z k <> inject_Z (js_round (c / s)) ->
  (1 # 2) * s <= Qabs (c - inject_Z k * s).
Proof.
  intros Hs Hk. destruct (snapToGrid_window c s Hs) as [W1 W2].
  unfold snapToGrid in W1, W2.
  set (n := js_round (c / s)) in *.
  destruct (Z.lt_trichotomy k n) as [Hlt | [Heq | Hgt]].
  - assert (L : inject_Z k <= inject_Z n - 1).
    { assert (Hz : (k + 1 <= n)%Z) by lia.
      rewrite Zle_Qle, inject_Z_plus in Hz. change (inject_Z 1) with 1 in Hz. lra. }
    assert (M : inject_Z k * s <= (inject_Z n - 1) * s) by (apply Qmult_le_compat_r; lra).
    apply Qabs_ge. lra.
  - subst. exfalso. apply Hk. reflexivity.
  - assert (L : inject_Z n + 1 <= inject_Z k).
    { assert (Hz : (n + 1 <= k)%Z) by lia.
      rewrite Zle_Qle, inject_Z_plus in Hz. change (inject_Z 1) with 1 in Hz. exact Hz. }
    assert (M : (inject_Z n + 1) * s <= inject_Z k * s) by (apply Qmult_le_compat_r; lra).
    rewrite <- Qabs_opp. apply Qabs_ge. lra.
Qed.

Lemma snap_multiple (c : Q) : exists k : Z, snap c == inject_Z k * 20.
Proof. exists (js_round (c / gridSize)). reflexivity. Qed.

(** C7: [snapToGrid] rounds to a nearest multiple of a positive spacing,
    and the pointer handlers snap the pointer before building geometry:
    a wall press creates its line at the snapped point, a room press
    records the snapped point, and a dropped item is placed at it. *)
Theorem snapToGrid_nearest_and_applied (c s : Q) (Hs : 0 < s) :
  (exists k : Z, snapToGrid c s == inject_Z k * s) /\
  (forall k : Z, Qabs (c - snapToGrid c s) <= Qabs (c - inject_Z k * s)) /\
  (forall (e : editor) (p : point),
     let e' := mouse_down false None p (with_tool TWall e) in
     obj_at (scn e') (next_ref (scn e)) =
       Some (plain (SLine (snap (px p)) (snap (py p)) (snap (px p)) (snap (py p)))) /\
     startPoint e' = Some (mkPoint (snap (px p)) (snap (py p)))) /\
  (forall (e : editor) (p : point),
     startPoint (mouse_down false None p (with_tool TRoom e)) =
       Some (mkPoint (snap (px p)) (snap (py p)))) /\
  (forall (e : editor) (item : furniture_item) (p : point),
     exists w h, obj_at (scn (step e (DropFurniture item p))) (next_ref (scn e)) =
       Some (mkObj (SGroup (mkRect (snap (px p)) (snap (py p)) w h) (f_name item))
                   false true false None None None)).
Proof.
  split; [| split; [| split; [| split]]].
  - exists (js_round (c / s)). reflexivity.
  - intros k.
    destruct (snapToGrid_window c s Hs) as [W1 W2].
    assert (Hle : Qabs (c - snapToGrid c s) <= (1 # 2) * s)
      by (apply Qabs_Qle_condition; lra).
    destruct (Z.eq_dec k (js_round (c / s))) as [-> | Hne].
    + apply Qle_refl.
    + assert (Hk : inject_Z k <> inject_Z (js_round (c / s))).
      { intros E. injection E. exact Hne. }
      pose proof (snapToGrid_far c s k Hs Hk). lra.
  - intros e p. simpl. split; [| reflexivity].
    unfold obj_at. simpl. apply lookup_insert_eq.
  - intros e p. reflexivity.
  - intros e item p. rewrite scn_step. unfold dispatch.
    unfold createFurnitureObjectOnCanvas.
    destruct (furniture_size (f_dimensions item)) as [w h].
    exists (inject_Z w), (inject_Z h).
    unfold alloc, bringObjectToFront; simpl.
    case_match; unfold obj_at; simpl; apply lookup_insert_eq.
Qed.

Lemma snapToGrid_nearest_and_applied_witness :
  0 < 20 /\ Qabs (27 - snapToGrid 27 20) <= Qabs (27 - inject_Z 2 * 20).
Proof.
  split; [reflexivity |].
  destruct (snapToGrid_nearest_and_applied 27 20 ltac:(reflexivity)) as [_ [H _]].
  apply H.
Defined.

(* ------------------------------------------------------------------ *)
(** ** The working rectangle of a room drag *)

Lemma room_move_rect_geometry (st pointer : point) :
  let g := room_move_rect st pointer in
  let sx := snap (px pointer) in
  let sy := snap (py pointer) in
  r_width g == Qabs (sx - px st) /\ r_height g == Qabs (sy - py st) /\
  r_left g == Qmin (px st) sx /\ r_top g == Qmin (py st) sy.
Proof.
  cbv zeta. unfold room_move_rect, js_abs. cbn [r_width r_height r_left r_top].
  destruct (Qlt_le_dec (snap (px pointer) - px st) 0) as [Hx | Hx];
  destruct (Qlt_le_dec (snap (py pointer) - py st) 0) as [Hy | Hy];
  repeat split;
  first [ rewrite Qabs_neg by lra; reflexivity
        | rewrite Qabs_pos by lra; reflexivity
        | rewrite Q.min_r by lra; reflexivity
        | rewrite Q.min_l by lra; reflexivity ].
Qed.

Lemma update_obj_at (r : nat) (f : fobj -> fobj) (s : scene) (o : fobj) :
  obj_at s r = Some o -> obj_at (update_obj r f s) r = Some (f o).
Proof. unfold obj_at, update_obj. intros ->. simpl. apply lookup_insert_eq. Qed.

(** C4: in every move of a room drag once [isDrawing] is set (the tool is
    room, the start point [st] is recorded and a working rectangle [r] is
    current), the rectangle the listener resizes is given width
    [|snappedX - startX|], height [|snappedY - startY|] and its top-left
    corner at the per-axis minimum of the start and the snapped pointer;
    only the labels are recomputed besides. The rectangle resized is [r]
    when [isDragging] is still set; after an effect re-run has reset the
    locals, the listener first adds a fresh zero-size working rectangle at
    the next reference, makes it current, and resizes that one. *)
Theorem room_drag_rect_normalized (e : editor) (target : option nat) (pointer : point)
    (now : Z) (st : point) (r : nat)
    (Htool : activeTool e = TRoom) (Hdraw : isDrawing e = true)
    (Hsp : startPoint e = Some st) (Hcur : currentRoom e = Some r)
    (Hrect : exists o g0, obj_at (scn e) r = Some o /\ o_shape o = SRect g0) :
  let e' := step e (MouseMove target pointer now) in
  let g := room_move_rect st pointer in
  let sx := snap (px pointer) in
  let sy := snap (py pointer) in
  exists r' s0 rid o',
    currentRoom e' = Some r' /\
    ((r' = r /\ s0 = scn e) \/
     (r' = next_ref (scn e) /\ s0 = canvas_add r' (snd (alloc (working_room st now) (scn e))))) /\
    (isDragging e = true -> r' = r /\ s0 = scn e) /\
    obj_at (update_obj r' (set_geometry g) s0) r' = Some o' /\ o_shape o' = SRect g /\
    scn e' = updateRoomDimensions rid st (mkPoint sx sy) (update_obj r' (set_geometry g) s0) /\
    r_width g == Qabs (sx - px st) /\ r_height g == Qabs (sy - py st) /\
    r_left g == Qmin (px st) sx /\ r_top g == Qmin (py st) sy.
Proof.
  destruct Hrect as (o & g0 & Ho & Hsh).
  cbv zeta.
  destruct (step_dispatch e (MouseMove target pointer now)) as (Hs & _ & _ & _ & _ & Hc & _).
  rewrite Hs, Hc. clear Hs Hc. cbn [dispatch].
  pose proof (room_move_rect_geometry st pointer) as Hgeo. cbv zeta in Hgeo.
  unfold mouse_move. rewrite Hsp, Hdraw. cbn [negb].
  destruct (isDragging e) eqn:Hdg;
    [| destruct target as [t|]; [| destruct (dragStarted e) eqn:Hds]];
    rewrite Htool; cbn [with_gesture with_scene with_selected currentRoom startPoint scn];
    rewrite ?Hcur, ?Hsp.
  1-3: exists r, (scn e); eexists; exists (set_geometry (room_move_rect st pointer) o);
    split; [cbn [currentRoom with_scene with_gesture]; rewrite ?Hcur; reflexivity|]; split; [left; auto|];
    split; [intros; auto|];
    split; [apply update_obj_at, Ho|];
    split; [unfold set_geometry; rewrite Hsh; reflexivity|];
    split; [reflexivity|exact Hgeo].
  cbn [alloc].
  eexists (next_ref (scn e)), _; eexists; eexists.
  split; [reflexivity|]. split; [right; split; reflexivity|].
  split; [discriminate|].
  split; [apply update_obj_at; unfold obj_at; cbn; apply lookup_insert_eq|].
  split; [reflexivity|].
  split; [reflexivity|exact Hgeo].
Qed.

Lemma room_drag_rect_normalized_witness :
  activeTool drag_in_progress = TRoom /\ isDrawing drag_in_progress = true /\
  startPoint drag_in_progress = Some (mkPoint 200 200) /\
  currentRoom drag_in_progress = Some 102%nat /\
  (exists o g0, obj_at (scn drag_in_progress) 102%nat = Some o /\ o_shape o = SRect g0) /\
  r_width (room_move_rect (mkPoint 200 200) (mkPoint 417 333)) == 220.
Proof.
  assert (Ht : activeTool drag_in_progress = TRoom) by (vm_compute; reflexivity).
  assert (Hd : isDrawing drag_in_progress = true) by (vm_compute; reflexivity).
  assert (Hs : startPoint drag_in_progress = Some (mkPoint 200 200)) by (vm_compute; reflexivity).
  assert (Hc : currentRoom drag_in_progress = Some 102%nat) by (vm_compute; reflexivity).
  assert (Hr : exists o g0, obj_at (scn drag_in_progress) 102%nat = Some o /\ o_shape o = SRect g0).
  { eexists _, _. split; [vm_compute; reflexivity | reflexivity]. }
  destruct (room_drag_rect_normalized drag_in_progress None (mkPoint 417 333) 1001%Z
              (mkPoint 200 200) 102%nat Ht Hd Hs Hc Hr)
    as (r' & s0 & rid & o' & _ & _ & _ & _ & _ & _ & Hw & _).
  split; [exact Ht|]. split; [exact Hd|]. split; [exact Hs|]. split; [exact Hc|].
  split; [exact Hr|].
  rewrite Hw. reflexivity.
Defined.

(* ------------------------------------------------------------------ *)
(** ** What the scene operations leave in the heap *)

Lemma bringObjectToFront_store (r : nat) (s : scene) :
  heap (bringObjectToFront r s) = heap s /\ next_ref (bringObjectToFront r s) = next_ref s /\
  roomLabels (bringObjectToFront r s) = roomLabels s /\
  roomCounter (bringObjectToFront r s) = roomCounter s.
Proof. unfold bringObjectToFront. destruct (existsb _ _); simpl; auto. Qed.










(* ------------------------------------------------------------------ *)
(** ** Parsing the catalog dimensions *)

Lemma star_digits_run {A} (d r : list ascii) (k : list ascii -> list ascii -> option A) (v : A) :
  Forall (fun c => is_digit c = true) d ->
  match r with c :: _ => is_digit c = false | [] => True end ->
  k d r = Some v -> star_digits (d ++ r) k = Some v.
Proof.
  intros Hd. revert k. induction Hd as [|c d Hc Hd IH]; intros k Hr Hk; cbn [app star_digits].
  - destruct r as [|c r]; cbn [star_digits]; [exact Hk|]. rewrite Hr. exact Hk.
  - rewrite Hc. rewrite (IH (fun t r => k (c :: t) r) Hr Hk). reflexivity.
Qed.

Lemma plus_digits_run {A} (c : ascii) (d r : list ascii)
    (k : list ascii -> list ascii -> option A) (v : A) :
  Forall (fun c => is_digit c = true) (c :: d) ->
  match r with c :: _ => is_digit c = false | [] => True end ->
  k (c :: d) r = Some v -> plus_digits ((c :: d) ++ r) k = Some v.
Proof.
  intros Hd Hr Hk. inversion Hd as [|? ? Hc Hd']; subst. cbn [app plus_digits]. rewrite Hc.
  apply (star_digits_run d r (fun t r => k (c :: t) r)); assumption.
Qed.

Lemma lazy_dot_skip {A} (u r : list ascii) (k : list ascii -> option A) (v : A) :
  Forall (fun c => is_line_terminator c = false /\ forall t, k (c :: t) = None) u ->
  k r = Some v -> lazy_dot (u ++ r) k = Some v.
Proof.
  intros Hu Hk. induction Hu as [|c u [Hlt Hc] Hu IH]; cbn [app].
  - destruct r; cbn [lazy_dot]; rewrite Hk; reflexivity.
  - cbn [lazy_dot]. rewrite Hc, Hlt. exact IH.
Qed.

Lemma dims_regex_search_shape (s d1 d2 : list ascii) :
  dims_shape s d1 d2 -> dims_regex_search s = Some (d1, d2).
Proof.
  intros (u1 & u2 & u3 & -> & Hn1 & Hn2 & Hd1 & Hd2 & Hu1 & Hu2 & Hu3).
  assert (Hat : dims_regex_at (d1 ++ u1 ++ "x"%char :: u2 ++ d2 ++ u3) = Some (d1, d2)).
  { unfold dims_regex_at. destruct d1 as [|c1 d1]; [congruence|].
    apply plus_digits_run; [exact Hd1| |].
    - destruct u1 as [|c u1]; [reflexivity|]. inversion Hu1 as [|? ? [H _]]; exact H.
    - apply lazy_dot_skip.
      + eapply Forall_impl; [exact Hu1|]. intros c (_ & Hx & Hl). split; [exact Hl|].
        intros t. rewrite Hx. reflexivity.
      + change (Ascii.eqb "x" "x") with true. cbv iota beta.
        apply lazy_dot_skip.
        * eapply Forall_impl; [exact Hu2|]. intros c (Hd & Hl). split; [exact Hl|].
          intros t. simpl. rewrite Hd. reflexivity.
        * destruct d2 as [|c2 d2]; [congruence|].
          apply (plus_digits_run c2 d2 u3 (fun g2 _ => Some ((c1 :: d1), g2))); auto. }
  destruct d1 as [|c1 d1]; [congruence|]. cbn [app] in Hat |- *.
  cbn [dims_regex_search]. rewrite Hat. reflexivity.
Qed.

Lemma createFurnitureObjectOnCanvas_group (item : furniture_item) (x y : Q) (s : scene) :
  fst (createFurnitureObjectOnCanvas item x y s) = next_ref s /\
  obj_at (snd (createFurnitureObjectOnCanvas item x y s)) (next_ref s) =
    Some (mkObj (SGroup (mkRect x y (inject_Z (fst (furniture_size (f_dimensions item))))
                               (inject_Z (snd (furniture_size (f_dimensions item)))))
                        (f_name item)) false true false None None None).
Proof.
  unfold createFurnitureObjectOnCanvas.
  destruct (furniture_size (f_dimensions item)) as [w h]. cbn [fst snd alloc].
  split; [reflexivity|]. unfold obj_at.
  rewrite (proj1 (bringObjectToFront_store _ _)). cbn [canvas_add set_objects heap].
  apply lookup_insert_eq.
Qed.

(** C8: a dropped item whose dimension string is a run of digits, a
    separator, [x], a separator and a second run of digits (units and
    quotes around them allowed) gets a placeholder group whose rectangle is
    [parseInt] of the two runs wide and high and whose label is the item's
    name; a string the pattern does not match gives the default 60 x 40;
    and the sofa's [84" x 36"] parses to 84 by 36. *)
Theorem furniture_dimensions_parsed (item : furniture_item) (e : editor) (p : point)
    (d1 d2 : list ascii)
    (Hs : dims_shape (list_ascii_of_string (f_dimensions item)) d1 d2) :
  furniture_size (f_dimensions item) = (parseInt_digits d1, parseInt_digits d2) /\
  obj_at (scn (step e (DropFurniture item p))) (next_ref (scn e)) =
    Some (mkObj (SGroup (mkRect (snap (px p)) (snap (py p))
                                (inject_Z (parseInt_digits d1)) (inject_Z (parseInt_digits d2)))
                        (f_name item)) false true false None None None) /\
  (forall dims, dims_regex_search (list_ascii_of_string dims) = None ->
                furniture_size dims = (60%Z, 40%Z)) /\
  furniture_size sofa_dims = (84%Z, 36%Z).
Proof.
  assert (Hfs : furniture_size (f_dimensions item) = (parseInt_digits d1, parseInt_digits d2)).
  { unfold furniture_size. rewrite (dims_regex_search_shape _ _ _ Hs). reflexivity. }
  split; [exact Hfs|]. split; [|split].
  - rewrite scn_step. cbn [dispatch].
    pose proof (createFurnitureObjectOnCanvas_group item (snap (px p)) (snap (py p)) (scn e))
      as [_ Hg].
    destruct (createFurnitureObjectOnCanvas item (snap (px p)) (snap (py p)) (scn e))
      as [g s1]; cbn [fst snd] in Hg.
    cbn [with_selected with_scene scn]. rewrite Hg, Hfs. reflexivity.
  - intros dims H. unfold furniture_size. rewrite H. reflexivity.
  - vm_compute. reflexivity.
Qed.

Lemma furniture_dimensions_parsed_witness :
  dims_shape (list_ascii_of_string (f_dimensions sofa))
             ["8"%char; "4"%char] ["3"%char; "6"%char] /\
  obj_at (scn (step init_editor (DropFurniture sofa (mkPoint 300 300)))) 102%nat =
    Some (mkObj (SGroup (mkRect 300 300 84 36) "Sofa") false true false None None None).
Proof.
  assert (Hs : dims_shape (list_ascii_of_string (f_dimensions sofa))
                          ["8"%char; "4"%char] ["3"%char; "6"%char]).
  { exists ["034"%char; " "%char], [" "%char], ["034"%char].
    repeat split; try discriminate; repeat constructor. }
  split; [exact Hs|].
  destruct (furniture_dimensions_parsed sofa init_editor (mkPoint 300 300) _ _ Hs)
    as (_ & Hg & _).
  replace 102%nat with (next_ref (scn init_editor)) by (vm_compute; reflexivity).
  rewrite Hg. vm_compute. reflexivity.
Defined.

(* ------------------------------------------------------------------ *)
(** ** The label upsert *)

Lemma scene_ext (s t : scene) :
  heap s = heap t -> objects s = objects t -> roomLabels s = roomLabels t ->
  roomCounter s = roomCounter t -> next_ref s = next_ref t -> s = t.
Proof. destruct s, t; simpl; intros; subst; reflexivity. Qed.

Lemma lookup_update_obj (x r : nat) (f : fobj -> fobj) (s : scene) :
  heap (update_obj x f s) !! r = if decide (x = r) then f <$> heap s !! r else heap s !! r.
Proof.
  unfold update_obj. destruct (heap s !! x) as [o|] eqn:E; cbn [heap];
    case_decide; subst.
  - rewrite lookup_insert_eq, E. reflexivity.
  - rewrite lookup_insert_ne by assumption. reflexivity.
  - rewrite E. reflexivity.
  - reflexivity.
Qed.

Lemma update_obj_fields (x : nat) (f : fobj -> fobj) (s : scene) :
  objects (update_obj x f s) = objects s /\ roomLabels (update_obj x f s) = roomLabels s /\
  roomCounter (update_obj x f s) = roomCounter s /\ next_ref (update_obj x f s) = next_ref s.
Proof. unfold update_obj. destruct (heap s !! x); auto. Qed.

Lemma set_text_set_text (a b a' b' : Q) (t t' : string) (o : fobj) :
  set_text a b t (set_text a' b' t' o) = set_text a b t o.
Proof. unfold set_text. destruct (o_shape o) eqn:E; cbn [o_shape]; rewrite ?E; reflexivity. Qed.

Lemma set_text_dimension_label (a b : Q) (t id kind : string) :
  set_text a b t (dimension_label a b t id kind) = dimension_label a b t id kind.
Proof. reflexivity. Qed.

(** C2: the label upsert is idempotent. Running it a second time with the
    same room id and bounds gives back exactly the scene of the first run,
    same heap, draw order and registry. So the second call creates no new
    objects and changes no label. After a call the registry holds one
    pair for the id. That pair is the one already registered, with the
    draw order unchanged, or else two fresh, distinct references. *)
Theorem label_upsert_idempotent (roomId : string) (l t w h : Q) (wf hf : Z) (s : scene) :
  let s1 := createRoomDimensionLabels roomId l t w h wf hf s in
  createRoomDimensionLabels roomId l t w h wf hf s1 = s1 /\
  exists wl hl, roomLabels s1 !! roomId = Some (wl, hl) /\
    match roomLabels s !! roomId with
    | Some p => p = (wl, hl) /\ objects s1 = objects s
    | None => wl = next_ref s /\ hl = S (next_ref s)
    end.
Proof.
  cbv zeta.
  destruct (roomLabels s !! roomId) as [[wl hl]|] eqn:E.
  - assert (Hs1 : createRoomDimensionLabels roomId l t w h wf hf s =
      update_obj hl (set_text (l + w + 15) (t + h / 2) (feet_text hf))
        (update_obj wl (set_text (l + w / 2) (t + h + 15) (feet_text wf)) s)).
    { unfold createRoomDimensionLabels. rewrite E. reflexivity. }
    rewrite Hs1.
    destruct (update_obj_fields wl (set_text (l + w / 2) (t + h + 15) (feet_text wf)) s)
      as (O1 & L1 & C1 & N1).
    destruct (update_obj_fields hl (set_text (l + w + 15) (t + h / 2) (feet_text hf))
                (update_obj wl (set_text (l + w / 2) (t + h + 15) (feet_text wf)) s))
      as (O2 & L2 & C2 & N2).
    split.
    + unfold createRoomDimensionLabels at 1. rewrite L2, L1, E.
      apply scene_ext.
      * apply map_eq. intros r. rewrite !lookup_update_obj.
        repeat case_decide; subst; try congruence;
          destruct (heap s !! r); cbn [fmap option_fmap option_map];
          rewrite ?set_text_set_text; reflexivity.
      * rewrite !(proj1 (update_obj_fields _ _ _)). reflexivity.
      * rewrite !(proj1 (proj2 (update_obj_fields _ _ _))). reflexivity.
      * rewrite !(proj1 (proj2 (proj2 (update_obj_fields _ _ _)))). reflexivity.
      * rewrite !(proj2 (proj2 (proj2 (update_obj_fields _ _ _)))). reflexivity.
    + exists wl, hl. rewrite L2, L1. split; [exact E|]. split; [reflexivity|].
      rewrite O2, O1. reflexivity.
  - set (Lw := dimension_label (l + w / 2) (t + h + 15) (feet_text wf) roomId "width").
    set (Lh := dimension_label (l + w + 15) (t + h / 2) (feet_text hf) roomId "height").
    assert (Hs1 : createRoomDimensionLabels roomId l t w h wf hf s =
      mkScene (<[S (next_ref s) := Lh]> (<[next_ref s := Lw]> (heap s)))
              (objects s ++ [next_ref s] ++ [S (next_ref s)])
              (<[roomId := (next_ref s, S (next_ref s))]> (roomLabels s))
              (roomCounter s) (S (S (next_ref s)))).
    { unfold createRoomDimensionLabels. rewrite E.
      unfold alloc, canvas_add, set_labels, set_objects. cbn.
      rewrite <- app_assoc. reflexivity. }
    rewrite Hs1. split.
    + unfold createRoomDimensionLabels at 1. cbn [roomLabels].
      rewrite lookup_insert_eq.
      apply scene_ext.
      * apply map_eq. intros r. rewrite !lookup_update_obj. cbn [heap].
        repeat case_decide; subst; try lia.
        -- rewrite lookup_insert_eq. reflexivity.
        -- rewrite lookup_insert_ne by lia. rewrite lookup_insert_eq. reflexivity.
        -- reflexivity.
      * rewrite !(proj1 (update_obj_fields _ _ _)). reflexivity.
      * rewrite !(proj1 (proj2 (update_obj_fields _ _ _))). reflexivity.
      * rewrite !(proj1 (proj2 (proj2 (update_obj_fields _ _ _)))). reflexivity.
      * rewrite !(proj2 (proj2 (proj2 (update_obj_fields _ _ _)))). reflexivity.
    + exists (next_ref s), (S (next_ref s)). cbn [roomLabels].
      rewrite lookup_insert_eq. auto.
Qed.

(* ------------------------------------------------------------------ *)
(** ** A well-formedness invariant of the reachable scenes *)

Lemma remove_first_In (r x : nat) (l : list nat) : In x (remove_first r l) -> In x l.
Proof.
  induction l as [|y l IH]; simpl; [auto|].
  destruct (Nat.eqb_spec r y); simpl; intuition.
Qed.

Lemma remove_first_NoDup (r : nat) (l : list nat) : List.NoDup l -> List.NoDup (remove_first r l).
Proof.
  induction 1 as [|y l Hy Hl IH]; simpl; [constructor|].
  destruct (Nat.eqb_spec r y); [exact Hl|].
  constructor; [|exact IH]. intros Hin. apply Hy. eapply remove_first_In; eauto.
Qed.

Lemma remove_first_not_In (r x : nat) (l : list nat) :
  List.NoDup l -> In x (remove_first r l) -> x <> r.
Proof.
  induction 1 as [|y l Hy Hl IH]; simpl; [contradiction|].
  destruct (Nat.eqb_spec r y) as [->|Hne].
  - intros Hin ->. contradiction.
  - intros [->|Hin]; [congruence|]. apply IH, Hin.
Qed.

Lemma remove_first_keep (r x : nat) (l : list nat) : x <> r -> In x l -> In x (remove_first r l).
Proof.
  intros Hne. induction l as [|y l IH]; simpl; [auto|].
  destruct (Nat.eqb_spec r y) as [->|Hry].
  - intros [->|Hin]; [congruence|exact Hin].
  - intros [->|Hin]; [left; reflexivity|right; apply IH, Hin].
Qed.

Lemma remove_first_perm (r : nat) (l : list nat) : In r l -> Permutation l (r :: remove_first r l).
Proof.
  induction l as [|y l IH]; simpl; [contradiction|].
  destruct (Nat.eqb_spec r y) as [->|Hry]; [reflexivity|].
  intros [->|Hin]; [congruence|].
  eapply perm_trans; [apply perm_skip, IH, Hin|]. apply perm_swap.
Qed.

Lemma existsb_eqb_In (r : nat) (l : list nat) : existsb (Nat.eqb r) l = true -> In r l.
Proof.
  rewrite existsb_exists. intros (x & Hx & E). apply Nat.eqb_eq in E. subst. exact Hx.
Qed.

Lemma index_of_In (r : nat) (l : list nat) (i : nat) : index_of r l = Some i -> In r l.
Proof.
  revert i. induction l as [|y l IH]; simpl; intros i; [discriminate|].
  destruct (Nat.eqb_spec r y) as [->|_]; [left; reflexivity|].
  destruct (index_of r l) eqn:E; simpl; [|discriminate]. intros _. right. eapply IH; eauto.
Qed.

Lemma wf_objects (s : scene) (l : list nat) :
  wf_scene s -> List.NoDup l -> (forall x, In x l -> In x (objects s)) ->
  wf_scene (set_objects l s).
Proof.
  intros (H1 & H2 & H3 & H4) Hn Hs. split; [exact Hn|]. split; [|split].
  - intros x Hx. apply H2, Hs, Hx.
  - exact H3.
  - intros id x Hx. apply H4, Hs, Hx.
Qed.

Lemma wf_perm (s : scene) (l : list nat) :
  wf_scene s -> Permutation l (objects s) -> wf_scene (set_objects l s).
Proof.
  intros Hw Hp. apply wf_objects; [exact Hw| |].
  - eapply Permutation_NoDup; [apply Permutation_sym, Hp|apply Hw].
  - intros x. apply Permutation_in, Hp.
Qed.

Lemma wf_bring (r : nat) (s : scene) : wf_scene s -> wf_scene (bringObjectToFront r s).
Proof.
  intros Hw. unfold bringObjectToFront.
  destruct (existsb (Nat.eqb r) (objects s)) eqn:E; [|exact Hw].
  apply wf_perm; [exact Hw|].
  eapply perm_trans; [apply Permutation_sym, Permutation_cons_append|].
  apply Permutation_sym, remove_first_perm, existsb_eqb_In, E.
Qed.

Lemma wf_sendToBack (r : nat) (s : scene) : wf_scene s -> wf_scene (sendObjectToBack r s).
Proof.
  intros Hw. unfold sendObjectToBack.
  destruct (existsb (Nat.eqb r) (objects s)) eqn:E; [|exact Hw].
  apply wf_perm; [exact Hw|].
  apply Permutation_sym, remove_first_perm, existsb_eqb_In, E.
Qed.

Lemma wf_backwards (r : nat) (s : scene) : wf_scene s -> wf_scene (sendObjectBackwards r s).
Proof.
  intros Hw. unfold sendObjectBackwards.
  destruct (index_of r (objects s)) as [[|i]|] eqn:E; [exact Hw| |exact Hw].
  apply wf_perm; [exact Hw|].
  eapply perm_trans; [apply Permutation_sym, Permutation_middle|].
  rewrite take_drop. apply Permutation_sym, remove_first_perm. eapply index_of_In; eauto.
Qed.

Lemma wf_fold_bring (p : scene -> nat -> bool) (l : list nat) (s : scene) :
  wf_scene s ->
  wf_scene (fold_left (fun s r => if p s r then bringObjectToFront r s else s) l s).
Proof.
  revert s. induction l as [|r l IH]; intros s Hw; simpl; [exact Hw|].
  apply IH. destruct (p s r); [apply wf_bring|]; exact Hw.
Qed.

Lemma wf_raise (s : scene) : wf_scene s -> wf_scene (raise_furniture s).
Proof.
  unfold raise_furniture. generalize (objects s) as l. intros l.
  revert s. induction l as [|r l IH]; intros s Hw; simpl; [exact Hw|].
  apply IH. destruct (obj_at s r) as [o|]; [destruct (isFurniture o); [apply wf_bring|]|];
    exact Hw.
Qed.

Lemma wf_remove (r : nat) (s : scene) : wf_scene s -> wf_scene (canvas_remove r s).
Proof.
  intros Hw. apply wf_objects; [exact Hw| |].
  - apply remove_first_NoDup, Hw.
  - intros x. apply remove_first_In.
Qed.

Lemma wf_bump (s : scene) (c : Z) :
  wf_scene s -> wf_scene (mkScene (heap s) (objects s) (roomLabels s) c (next_ref s)).
Proof. intros Hw. exact Hw. Qed.

Lemma set_text_tags (l t : Q) (txt : string) : keeps_tags (set_text l t txt).
Proof. intros o. unfold set_text. destruct (o_shape o); auto. Qed.

Lemma set_line_end_tags (x y : Q) : keeps_tags (set_line_end x y).
Proof. intros o. unfold set_line_end. destruct (o_shape o); auto. Qed.

Lemma set_geometry_tags (g : rect) : keeps_tags (set_geometry g).
Proof. intros o. unfold set_geometry. auto. Qed.

Lemma is_label_of_update (id : string) (x r : nat) (f : fobj -> fobj) (s : scene) :
  keeps_tags f -> is_label_of id (update_obj x f s) r = is_label_of id s r.
Proof.
  intros Hf. unfold is_label_of, obj_at. rewrite lookup_update_obj.
  case_decide; [subst|reflexivity].
  destruct (heap s !! r) as [o|]; [|reflexivity]. cbn [fmap option_fmap option_map].
  destruct (Hf o) as [-> ->]. reflexivity.
Qed.

Lemma wf_update (x : nat) (f : fobj -> fobj) (s : scene) :
  keeps_tags f -> wf_scene s -> wf_scene (update_obj x f s).
Proof.
  intros Hf (H1 & H2 & H3 & H4).
  destruct (update_obj_fields x f s) as (O & L & _ & N).
  unfold wf_scene. rewrite O, L, N. split; [exact H1|]. split; [exact H2|]. split.
  - intros id w h E. rewrite !is_label_of_update by exact Hf. apply H3, E.
  - intros id r Hr. rewrite is_label_of_update by exact Hf. apply H4, Hr.
Qed.

Lemma alloc_eq (o : fobj) (s : scene) (r : nat) (s1 : scene) :
  alloc o s = (r, s1) ->
  r = next_ref s /\
  s1 = mkScene (<[next_ref s := o]> (heap s)) (objects s) (roomLabels s) (roomCounter s)
               (S (next_ref s)).
Proof. unfold alloc. intros E. injection E as <- <-. auto. Qed.

Lemma is_label_of_alloc (id : string) (o : fobj) (s : scene) (x : nat) :
  (x < next_ref s)%nat ->
  is_label_of id (mkScene (<[next_ref s := o]> (heap s)) (objects s) (roomLabels s)
                          (roomCounter s) (S (next_ref s))) x = is_label_of id s x.
Proof.
  intros Hx. unfold is_label_of, obj_at. cbn [heap]. rewrite lookup_insert_ne by lia.
  reflexivity.
Qed.

Lemma wf_alloc_add (o : fobj) (s : scene) (r : nat) (s1 : scene) :
  wf_scene s -> isDimensionLabel o = false -> alloc o s = (r, s1) ->
  wf_scene (canvas_add r s1).
Proof.
  intros (H1 & H2 & H3 & H4) Hl Ea. apply alloc_eq in Ea as [-> ->].
  unfold wf_scene, canvas_add, set_objects. cbn [heap objects roomLabels next_ref].
  split; [|split; [|split]].
  - eapply Permutation_NoDup; [apply Permutation_cons_append|].
    constructor; [|exact H1]. intros Hin. apply H2 in Hin. lia.
  - intros x Hx. apply in_app_or in Hx as [Hx|[<-|[]]]; [apply H2 in Hx|]; lia.
  - intros id w h E. destruct (H3 id w h E) as (Hw & Hh & Lw & Lh).
    split; [lia|]. split; [lia|].
    change (is_label_of id (mkScene (<[next_ref s := o]> (heap s)) (objects s)
              (roomLabels s) (roomCounter s) (S (next_ref s))) w = true /\
            is_label_of id (mkScene (<[next_ref s := o]> (heap s)) (objects s)
              (roomLabels s) (roomCounter s) (S (next_ref s))) h = true).
    rewrite !is_label_of_alloc by assumption. auto.
  - intros id x Hx.
    change (is_label_of id (mkScene (<[next_ref s := o]> (heap s)) (objects s)
              (roomLabels s) (roomCounter s) (S (next_ref s))) x = true ->
            exists w h, roomLabels s !! id = Some (w, h) /\ (x = w \/ x = h)).
    apply in_app_or in Hx as [Hx|[<-|[]]].
    + rewrite is_label_of_alloc by (apply H2, Hx). apply H4, Hx.
    + unfold is_label_of, obj_at. cbn [heap]. rewrite lookup_insert_eq, Hl. discriminate.
Qed.

Lemma wf_createRoomDimensionLabels (id : string) (l t w h : Q) (wf hf : Z) (s : scene) :
  wf_scene s -> wf_scene (createRoomDimensionLabels id l t w h wf hf s).
Proof.
  intros Hw. unfold createRoomDimensionLabels.
  destruct (roomLabels s !! id) as [[wl hl]|] eqn:E.
  - apply wf_update; [apply set_text_tags|]. apply wf_update; [apply set_text_tags|]. exact Hw.
  - destruct Hw as (H1 & H2 & H3 & H4).
    set (n := next_ref s).
    set (Lw := dimension_label (l + w / 2) (t + h + 15) (feet_text wf) id "width").
    set (Lh := dimension_label (l + w + 15) (t + h / 2) (feet_text hf) id "height").
    change (wf_scene (mkScene (<[S n := Lh]> (<[n := Lw]> (heap s)))
                              ((objects s ++ [n]) ++ [S n])
                              (<[id := (n, S n)]> (roomLabels s)) (roomCounter s) (S (S n)))).
    assert (Hlab : forall id' x os c m, (x < n)%nat ->
      is_label_of id' (mkScene (<[S n := Lh]> (<[n := Lw]> (heap s))) os m c (S (S n))) x =
      is_label_of id' s x).
    { intros id' x os c m Hx. unfold is_label_of, obj_at. cbn [heap].
      rewrite !lookup_insert_ne by lia. reflexivity. }
    assert (HLw : forall id' os c m,
      is_label_of id' (mkScene (<[S n := Lh]> (<[n := Lw]> (heap s))) os m c (S (S n))) n =
      bool_decide (Some id = Some id')).
    { intros id' os c m. unfold is_label_of, obj_at. cbn [heap].
      rewrite lookup_insert_ne by lia. rewrite lookup_insert_eq. reflexivity. }
    assert (HLh : forall id' os c m,
      is_label_of id' (mkScene (<[S n := Lh]> (<[n := Lw]> (heap s))) os m c (S (S n))) (S n) =
      bool_decide (Some id = Some id')).
    { intros id' os c m. unfold is_label_of, obj_at. cbn [heap].
      rewrite lookup_insert_eq. reflexivity. }
    unfold wf_scene. cbn [heap objects roomLabels roomCounter next_ref].
    rewrite <- app_assoc. cbn [app].
    split; [|split; [|split]].
    + eapply Permutation_NoDup; [apply (Permutation_app_comm [n; S n] (objects s))|].
      assert (Hn : ~ In n (objects s)) by (intros Hin; apply H2 in Hin; lia).
      assert (Hsn : ~ In (S n) (objects s)) by (intros Hin; apply H2 in Hin; lia).
      constructor; [|constructor; [exact Hsn|exact H1]].
      intros [Heq|Hin]; [lia|contradiction].
    + intros x Hx. apply in_app_or in Hx as [Hx|[<-|[<-|[]]]]; [apply H2 in Hx|..]; lia.
    + intros id' w' h' E'.
      destruct (decide (id = id')) as [<-|Hne].
      * rewrite lookup_insert_eq in E'. injection E' as <- <-.
        rewrite HLw, HLh. rewrite bool_decide_eq_true_2 by reflexivity. repeat split; lia.
      * rewrite lookup_insert_ne in E' by exact Hne.
        destruct (H3 id' w' h' E') as (Hw' & Hh' & L1 & L2).
        rewrite !Hlab by assumption. repeat split; first [lia | assumption].
    + intros id' x Hx Hl.
      apply in_app_or in Hx as [Hx|[<-|[<-|[]]]].
      * rewrite Hlab in Hl by (apply H2, Hx).
        destruct (H4 id' x Hx Hl) as (w' & h' & E' & Hx').
        destruct (decide (id = id')) as [<-|Hne]; [congruence|].
        exists w', h'. rewrite lookup_insert_ne by exact Hne. auto.
      * rewrite HLw in Hl. apply bool_decide_eq_true_1 in Hl. injection Hl as <-.
        exists n, (S n). rewrite lookup_insert_eq. auto.
      * rewrite HLh in Hl. apply bool_decide_eq_true_1 in Hl. injection Hl as <-.
        exists n, (S n). rewrite lookup_insert_eq. auto.
Qed.

Lemma wf_updateRoomDimensions (rid : option string) (st fin : point) (s : scene) :
  wf_scene s -> wf_scene (updateRoomDimensions rid st fin s).
Proof.
  intros Hw. unfold updateRoomDimensions.
  destruct rid; [|exact Hw].
  destruct (Qlt_le_dec _ _); [|exact Hw]. destruct (Qlt_le_dec _ _); [|exact Hw].
  apply wf_createRoomDimensionLabels, Hw.
Qed.

Lemma wf_updatePersistentRoomDimensions (rid : option string) (b : rect) (s : scene) :
  wf_scene s -> wf_scene (updatePersistentRoomDimensions rid b s).
Proof.
  intros Hw. unfold updatePersistentRoomDimensions.
  destruct rid; [|exact Hw].
  destruct (Qlt_le_dec _ _); [|exact Hw]. destruct (Qlt_le_dec _ _); [|exact Hw].
  apply wf_createRoomDimensionLabels, Hw.
Qed.

Lemma wf_fold_remove (l : list nat) (s : scene) :
  wf_scene s -> wf_scene (fold_left (fun s r => canvas_remove r s) l s).
Proof.
  revert s. induction l as [|r l IH]; intros s Hw; simpl; [exact Hw|].
  apply IH, wf_remove, Hw.
Qed.

Lemma wf_removeRoomDimensionLabels (id : string) (s : scene) :
  wf_scene s -> wf_scene (removeRoomDimensionLabels id s).
Proof.
  intros Hw. unfold removeRoomDimensionLabels.
  destruct (roomLabels s !! id) as [[w h]|] eqn:E; [|apply wf_fold_remove, Hw].
  destruct Hw as (H1 & H2 & H3 & H4).
  assert (Hn : List.NoDup (remove_first w (objects s)))
    by (apply remove_first_NoDup, H1).
  unfold wf_scene, set_labels, canvas_remove, set_objects.
  cbn [heap objects roomLabels next_ref].
  split; [|split; [|split]].
  - apply remove_first_NoDup, Hn.
  - intros x Hx. apply H2. eapply remove_first_In, remove_first_In, Hx.
  - intros id' w' h' E'. destruct (decide (id = id')) as [<-|Hne].
    + rewrite lookup_delete_eq in E'. discriminate.
    + rewrite lookup_delete_ne in E' by exact Hne. apply (H3 id' w' h' E').
  - intros id' x Hx Hl.
    assert (Hxh : x <> h) by (eapply remove_first_not_In; [exact Hn|exact Hx]).
    assert (Hxw : x <> w)
      by (eapply remove_first_not_In; [exact H1|eapply remove_first_In, Hx]).
    destruct (H4 id' x (remove_first_In _ _ _ (remove_first_In _ _ _ Hx)) Hl)
      as (w' & h' & E' & Hx').
    destruct (decide (id = id')) as [<-|Hne].
    + rewrite E in E'. injection E' as <- <-. destruct Hx'; contradiction.
    + exists w', h'. rewrite lookup_delete_ne by exact Hne. auto.
Qed.

Lemma wf_handleDeleteObject (sel : option nat) (s : scene) :
  wf_scene s -> wf_scene (handleDeleteObject sel s).
Proof.
  intros Hw. unfold handleDeleteObject.
  destruct sel as [r|]; [|exact Hw]. apply wf_remove.
  destruct (obj_at s r) as [o|]; [|exact Hw].
  destruct (o_id o) as [i|]; [|exact Hw].
  destruct (String.prefix "room_" i); [|exact Hw].
  apply wf_removeRoomDimensionLabels, Hw.
Qed.

Lemma wf_add_all (os : list fobj) (s : scene) :
  forallb (fun o => negb (isDimensionLabel o)) os = true ->
  wf_scene s -> wf_scene (add_all os s).
Proof.
  unfold add_all. revert s. induction os as [|o os IH]; intros s Hos Hw;
    cbn [fold_left forallb] in *; [exact Hw|].
  apply andb_prop in Hos as [Ho Hos]. apply IH; [exact Hos|].
  destruct (alloc o s) as [r s1] eqn:Ea.
  eapply wf_alloc_add; [exact Hw| |exact Ea]. destruct (isDimensionLabel o); [discriminate|reflexivity].
Qed.

Lemma wf_addGridToCanvas (s : scene) : wf_scene s -> wf_scene (addGridToCanvas s).
Proof. apply wf_add_all. vm_compute. reflexivity. Qed.

Lemma wf_clearCanvas (s : scene) : wf_scene s -> wf_scene (clearCanvas s).
Proof.
  intros Hw. apply wf_addGridToCanvas. apply wf_objects; [exact Hw|constructor|].
  intros x [].
Qed.

Lemma wf_addDimension (x1 y1 x2 y2 : Q) (s : scene) :
  wf_scene s -> wf_scene (addDimension x1 y1 x2 y2 s).
Proof. apply wf_add_all. reflexivity. Qed.

Lemma wf_createFurnitureObjectOnCanvas (item : furniture_item) (x y : Q) (s : scene) :
  wf_scene s -> wf_scene (snd (createFurnitureObjectOnCanvas item x y s)).
Proof.
  intros Hw. unfold createFurnitureObjectOnCanvas.
  destruct (furniture_size (f_dimensions item)) as [w h].
  destruct (alloc _ s) as [g s1] eqn:Ea. cbn [snd].
  apply wf_bring. eapply wf_alloc_add; [exact Hw| |exact Ea]. reflexivity.
Qed.

Lemma wf_init_scene : wf_scene init_scene.
Proof.
  apply wf_addGridToCanvas. split; [constructor|]. split; [|split].
  - intros x [].
  - intros id w h E. cbn [roomLabels] in E. rewrite lookup_empty in E. discriminate.
  - intros id x [].
Qed.

Ltac ed_simpl :=
  cbn [scn with_scene with_gesture with_context with_dimensionStart with_selected
       with_tool activeTool isDrawing startPoint isDragging dragStarted
       currentWall currentRoom dimensionStart selectedObject contextTarget] in *.

Ltac wf_solve :=
  repeat first
    [ eassumption
    | match goal with
      | H : alloc _ _ = (?r, ?s1) |- wf_scene (canvas_add ?r ?s1) =>
          refine (wf_alloc_add _ _ _ _ _ _ H); [|reflexivity]
      end
    | apply wf_updateRoomDimensions
    | apply wf_updatePersistentRoomDimensions
    | apply wf_update; [first [apply set_geometry_tags | apply set_line_end_tags
                               | apply set_text_tags]|]
    | apply wf_bring
    | apply wf_raise
    | apply wf_bump
    | apply wf_remove
    | apply wf_addDimension
    | apply wf_sendToBack
    | apply wf_backwards
    | apply wf_handleDeleteObject
    | apply wf_clearCanvas
    | apply wf_createFurnitureObjectOnCanvas ].

Lemma wf_mouse_down (ctx : bool) (target : option nat) (pointer : point) (e : editor) :
  wf_scene (scn e) -> wf_scene (scn (mouse_down ctx target pointer e)).
Proof.
  intros Hw. unfold mouse_down. cbv zeta. ed_simpl.
  repeat (case_match; ed_simpl); wf_solve.
Qed.

Lemma wf_mouse_move (target : option nat) (pointer : point) (now : Z) (e : editor) :
  wf_scene (scn e) -> wf_scene (scn (mouse_move target pointer now e)).
Proof.
  intros Hw. unfold mouse_move. cbv zeta. ed_simpl.
  repeat (case_match; ed_simpl); wf_solve.
Qed.

Lemma wf_selection_created (r : nat) (e : editor) :
  wf_scene (scn e) -> wf_scene (scn (selection_created r e)).
Proof.
  intros Hw. unfold selection_created. cbv zeta. ed_simpl.
  repeat (case_match; ed_simpl); wf_solve.
Qed.

Lemma wf_finalize_room (room : nat) (now : Z) (e : editor) :
  wf_scene (scn e) -> wf_scene (scn (finalize_room room now e)).
Proof.
  intros Hw. unfold finalize_room.
  destruct (obj_at (scn e) room) as [o|]; [|exact Hw]. cbv zeta.
  destruct (alloc _ _) as [grp s2] eqn:Ea. ed_simpl.
  apply wf_updatePersistentRoomDimensions, wf_bump, wf_selection_created. ed_simpl.
  apply wf_raise.
  refine (wf_alloc_add _ _ _ _ _ _ Ea); [apply wf_remove, Hw|reflexivity].
Qed.

Lemma wf_mouse_up (target : option nat) (now : Z) (e : editor) :
  wf_scene (scn e) -> wf_scene (scn (mouse_up target now e)).
Proof.
  intros Hw. unfold mouse_up. cbv zeta. ed_simpl.
  repeat (case_match; ed_simpl); try apply wf_finalize_room; ed_simpl; wf_solve.
Qed.

Lemma wf_handleBringToFront (e : editor) :
  wf_scene (scn e) -> wf_scene (scn (handleBringToFront e)).
Proof.
  intros Hw. unfold handleBringToFront.
  destruct (contextTarget e) as [t|]; [|exact Hw]. cbv zeta. ed_simpl.
  destruct (is_furniture_ref _ t); [|apply wf_bring, Hw].
  apply wf_bring.
  apply (wf_fold_bring (fun s r => is_furniture_ref s r && negb (Nat.eqb r t))).
  apply wf_bring, Hw.
Qed.

Lemma wf_handleSendToBack (e : editor) :
  wf_scene (scn e) -> wf_scene (scn (handleSendToBack e)).
Proof.
  intros Hw. unfold handleSendToBack.
  destruct (contextTarget e) as [t|]; [|exact Hw]. cbv zeta.
  destruct (is_furniture_ref (scn e) t); ed_simpl; [|wf_solve].
  apply wf_raise. repeat case_match; wf_solve.
Qed.

Lemma wf_delete_selected (e : editor) :
  wf_scene (scn e) -> wf_scene (scn (delete_selected e)).
Proof.
  intros Hw. unfold delete_selected.
  destruct (selectedObject e); [|exact Hw]. apply wf_handleDeleteObject, Hw.
Qed.

Lemma wf_object_transformed (r : nat) (g b : rect) (e : editor) :
  wf_scene (scn e) -> wf_scene (scn (object_transformed r g b e)).
Proof.
  intros Hw. unfold object_transformed. cbv zeta.
  assert (Hu : wf_scene (update_obj r (set_geometry g) (scn e)))
    by (apply wf_update; [apply set_geometry_tags|exact Hw]).
  destruct (obj_at (update_obj r (set_geometry g) (scn e)) r) as [o|]; [|exact Hu].
  destruct (is_room_id (o_id o)); [|exact Hu].
  apply wf_updatePersistentRoomDimensions, Hu.
Qed.

Lemma wf_step (e : editor) (ev : event) : wf_scene (scn e) -> wf_scene (scn (step e ev)).
Proof.
  intros Hw. rewrite scn_step. destruct ev; cbn [dispatch].
  - apply wf_mouse_down, Hw.
  - apply wf_mouse_move, Hw.
  - apply wf_mouse_up, Hw.
  - pose proof (wf_createFurnitureObjectOnCanvas item (snap (px pointer)) (snap (py pointer))
                  (scn e) Hw) as Hc.
    destruct (createFurnitureObjectOnCanvas _ _ _ _) as [g s1]. exact Hc.
  - apply wf_selection_created, Hw.
  - apply wf_handleBringToFront, Hw.
  - apply wf_handleSendToBack, Hw.
  - apply wf_delete_selected, Hw.
  - apply wf_object_transformed, Hw.
  - ed_simpl. apply wf_clearCanvas, Hw.
  - exact Hw.
Qed.

Lemma wf_run (evs : list event) (e : editor) : wf_scene (scn e) -> wf_scene (scn (run evs e)).
Proof.
  unfold run. revert e. induction evs as [|ev evs IH]; intros e Hw; simpl; [exact Hw|].
  apply IH, wf_step, Hw.
Qed.

Lemma wf_reachable (evs : list event) : wf_scene (scn (run evs init_editor)).
Proof. apply wf_run, wf_init_scene. Qed.

(* ------------------------------------------------------------------ *)
(** ** Deleting a room *)






(* ------------------------------------------------------------------ *)
(** ** Layering of furniture and rooms *)

(** C1: a room (106) is drawn and then a sofa (107) is dropped, which
    leaves the furniture above the room. Two operations then put the room
    above the sofa and re-raise no furniture: selecting the room (the
    [selection:created] listener brings rooms to the front) and
    bring-to-front on the room from the context menu. Drawing a room over
    a sofa dropped first does the same: finalisation re-raises the sofa,
    and then selecting the new group brings the room above it. *)
Lemma room_raised_above_furniture :
  furniture_above_rooms (drawn (scn (run room_then_sofa init_editor))) = true /\
  furniture_above_rooms (drawn (scn (run (room_then_sofa ++ click_room) init_editor))) = false /\
  List.skipn 102 (objects (scn (run (room_then_sofa ++ click_room) init_editor)))
    = [102%nat; 104%nat; 105%nat; 107%nat; 106%nat] /\
  furniture_above_rooms
    (drawn (scn (run (room_then_sofa ++ context_bring_room) init_editor))) = false /\
  furniture_above_rooms
    (drawn (scn (run [DropFurniture sofa (mkPoint 500 500)] init_editor))) = true /\
  furniture_above_rooms (drawn (scn (run sofa_then_room init_editor))) = false /\
  List.skipn 102 (objects (scn (run sofa_then_room init_editor)))
    = [103%nat; 105%nat; 106%nat; 102%nat; 107%nat].
Proof. repeat split; vm_compute; reflexivity. Qed.

(* ------------------------------------------------------------------ *)
(** ** The working rectangles a room drag leaves *)

(** C5, counterexample: a room drag (press at (200, 200), moves to
    (210, 205) and (420, 340), release) leaves, besides the finalized
    220 x 140 room group (106), a room rectangle of width and height 0 on
    the surface (102). The first move created it, the effect re-ran
    ([isDrawing] and [selectedObject] changed) and reset [dragStarted], so
    the second move created and resized a second working rectangle, the
    only one [mouse:up] replaces. The 0 x 0 room remains once the gesture
    is over, also after a later drop. *)
Lemma zero_size_room_left_behind :
  isDrawing (run room_drawn init_editor) = false /\
  currentRoom (run room_drawn init_editor) = None /\
  In 102%nat (objects (scn (run room_drawn init_editor))) /\
  obj_at (scn (run room_drawn init_editor)) 102%nat =
    Some (mkObj (SRect (mkRect 200 200 0 0)) true false false (Some "room_1000") None None) /\
  obj_at (scn (run room_drawn init_editor)) 106%nat =
    Some (mkObj (SGroup (mkRect 200 200 220 140) "Room 1") true false false
                (Some "room_1001") None None) /\
  In 102%nat (objects (scn (run room_then_sofa init_editor))) /\
  obj_at (scn (run room_then_sofa init_editor)) 102%nat =
    Some (mkObj (SRect (mkRect 200 200 0 0)) true false false (Some "room_1000") None None).
Proof.
  split; [vm_compute; reflexivity|]. split; [vm_compute; reflexivity|].
  split; [apply existsb_eqb_In; vm_compute; reflexivity|].
  split; [vm_compute; reflexivity|]. split; [vm_compute; reflexivity|].
  split; [apply existsb_eqb_In; vm_compute; reflexivity|].
  vm_compute; reflexivity.
Qed.

(* ------------------------------------------------------------------ *)
(** ** Press and release without a move *)

(** C6, counterexample: with the wall tool, a press at (205, 195) and a
    release with no move between them leave a wall of length 0 at the
    snapped point (200, 200) on the surface. *)
Lemma wall_click_leaves_zero_length_wall :
  In 102%nat (objects (scn (run [SelectTool TWall; MouseDown false None (mkPoint 205 195);
                                 MouseUp None 1000%Z] init_editor))) /\
  obj_at (scn (run [SelectTool TWall; MouseDown false None (mkPoint 205 195);
                    MouseUp None 1000%Z] init_editor)) 102%nat =
    Some (plain (SLine 200 200 200 200)).
Proof. split; [apply existsb_eqb_In|]; vm_compute; reflexivity. Qed.

(** C6 (amended): press and release on the empty surface, with no move
    between them and no gesture in progress. With the room tool the scene
    is left exactly as it was, so no room is created. With the wall tool
    exactly one object is added on top: a wall of length 0 at the snapped
    press point. *)
Theorem press_release_without_move (e : editor) (p : point) (t : option nat) (now : Z)
    (Hdraw : isDrawing e = false) :
  (activeTool e = TRoom ->
     scn (run [MouseDown false None p; MouseUp t now] e) = scn e) /\
  (activeTool e = TWall ->
     objects (scn (run [MouseDown false None p; MouseUp t now] e)) =
       objects (scn e) ++ [next_ref (scn e)] /\
     obj_at (scn (run [MouseDown false None p; MouseUp t now] e)) (next_ref (scn e)) =
       Some (plain (SLine (snap (px p)) (snap (py p)) (snap (px p)) (snap (py p))))).
Proof.
  destruct e as [s tl dr sp dg ds cw cr dst sel ctx]. cbn [isDrawing] in Hdraw. subst dr.
  split; intros Ht; cbn [activeTool] in Ht; subst tl;
    unfold run; cbn [fold_left]; rewrite scn_step; unfold step;
    cbn [dispatch press_sets_startPoint tool_eqb orb];
    unfold mouse_up, mouse_down; cbv zeta; ed_simpl;
    cbn [tool_eqb negb andb].
  - repeat (case_match; ed_simpl; try congruence); reflexivity.
  - cbn [alloc]. repeat (case_match; ed_simpl; try congruence); unfold obj_at; cbn [heap objects canvas_add set_objects];
      (split; [reflexivity|apply lookup_insert_eq]).
Qed.

Lemma press_release_without_move_witness :
  isDrawing (run [SelectTool TWall] init_editor) = false /\
  activeTool (run [SelectTool TWall] init_editor) = TWall /\
  obj_at (scn (run [MouseDown false None (mkPoint 205 195); MouseUp None 1000%Z]
                   (run [SelectTool TWall] init_editor))) 102%nat =
    Some (plain (SLine 200 200 200 200)).
Proof.
  assert (Hd : isDrawing (run [SelectTool TWall] init_editor) = false) by reflexivity.
  assert (Ht : activeTool (run [SelectTool TWall] init_editor) = TWall) by reflexivity.
  split; [exact Hd|]. split; [exact Ht|].
  destruct (press_release_without_move (run [SelectTool TWall] init_editor) (mkPoint 205 195)
              None 1000%Z Hd) as [_ Hw].
  destruct (Hw Ht) as [_ Ho].
  replace 102%nat with (next_ref (scn (run [SelectTool TWall] init_editor)))
    by (vm_compute; reflexivity).
  rewrite Ho. vm_compute. reflexivity.
Defined.

(* ------------------------------------------------------------------ *)
(** ** The fallback of the floorplan analysis *)

(** C9: once the file is turned into an image and the image is loaded,
    a failure of the AI pipeline gives a successful result. The failure
    can be the models failing to initialise, the object detector throwing
    or the segmenter throwing. The result holds exactly three elements,
    the synthetic rooms Living Room, Kitchen and Bedroom. Each has its x
    proportional to the image's width and its y proportional to the
    image's height. *)
Theorem ai_failure_synthetic_rooms (file_type : string) (env : ai_env) (img : image)
    (Hconv : convertToImage file_type env = Ok tt)
    (Himg : env_load_image env = Some img)
    (Hfail : env_models_ready env = false \/ (exists m, env_detect env = Throws m) \/
             (exists m, env_segment env = Throws m)) :
  exists d,
    analyzeFloorplan file_type env = mkResult true (Some d) None /\
    List.length (elements d) = 3%nat /\
    Forall (fun el => el_type el = ERoom) (elements d) /\
    map el_label (elements d) =
      [Some "Living Room"%string; Some "Kitchen"%string; Some "Bedroom"%string] /\
    map (fun el => (cx (el_coordinates el), cy (el_coordinates el))) (elements d) =
      [(naturalWidth img * (1 # 10), naturalHeight img * (1 # 10));
       (naturalWidth img * (55 # 100), naturalHeight img * (1 # 10));
       (naturalWidth img * (1 # 10), naturalHeight img * (6 # 10))].
Proof.
  exists (synthetic_data img).
  split.
  - unfold analyzeFloorplan. rewrite Hconv, Himg.
    destruct (env_models_ready env) eqn:Hr; [|reflexivity].
    unfold performAnalysis.
    destruct Hfail as [Hf|[[m Hd]|[m Hs]]]; [congruence| |].
    + rewrite Hd. reflexivity.
    + destruct (env_detect env); [|reflexivity]. rewrite Hs. reflexivity.
  - split; [reflexivity|]. split; [repeat constructor|]. split; reflexivity.
Qed.

Lemma ai_failure_synthetic_rooms_witness :
  convertToImage "image/png" failing_env = Ok tt /\
  env_load_image failing_env = Some (mkImage 1000 800) /\
  exists d, analyzeFloorplan "image/png" failing_env = mkResult true (Some d) None /\
            List.length (elements d) = 3%nat.
Proof.
  assert (Hc : convertToImage "image/png" failing_env = Ok tt) by reflexivity.
  assert (Hi : env_load_image failing_env = Some (mkImage 1000 800)) by reflexivity.
  split; [exact Hc|]. split; [exact Hi|].
  destruct (ai_failure_synthetic_rooms "image/png" failing_env (mkImage 1000 800) Hc Hi
              (or_introl eq_refl)) as (d & Hd & Hl & _).
  exists d. auto.
Defined.

(* ------------------------------------------------------------------ *)
(** ** Rejection of invalid uploads *)

(** C10: a file over the 10MB limit, an empty file, a MIME type outside
    the four allowed ones, or content whose leading bytes do not carry
    the signature of the declared type is rejected. [validateFile] answers
    [isValid = false] with an error message and no file, and the upload
    dialog shows the message and keeps the previously selected file
    (if any), so the rejected file is never selected. *)
Theorem invalid_upload_rejected (f : upload_file) (st : upload_state)
    (Hbad : (MAX_FILE_SIZE < file_size f)%Z \/ file_size f = 0%Z \/
            ~ In (file_type f) ALLOWED_MIME_TYPES \/ validateMagicNumber f = false) :
  isValid (validateFile f) = false /\ sanitizedFile (validateFile f) = None /\
  exists m, verror (validateFile f) = Some m /\
            handleFileSelect f st = mkUpload (selected_file st) (Some m).
Proof.
  assert (H : isValid (validateFile f) = false /\ sanitizedFile (validateFile f) = None /\
              exists m, verror (validateFile f) = Some m).
  { unfold validateFile.
    destruct (MAX_FILE_SIZE <? file_size f)%Z eqn:E1; [cbn; eauto|].
    destruct (file_size f =? 0)%Z eqn:E2; [cbn; eauto|]. cbv zeta.
    destruct (String.eqb (sanitizeFilename (file_name f)) EmptyString); [cbn; eauto|].
    destruct (existsb (String.eqb (file_type f)) ALLOWED_MIME_TYPES) eqn:E3; [|cbn; eauto].
    destruct (validateMagicNumber f) eqn:E4; [|cbn; eauto].
    exfalso. destruct Hbad as [Hb|[Hb|[Hb|Hb]]].
    - apply Z.ltb_nlt in E1. lia.
    - rewrite Hb in E2. discriminate.
    - apply Hb. apply existsb_exists in E3 as (x & Hx & Ex).
      apply String.eqb_eq in Ex. subst. exact Hx.
    - congruence. }
  destruct H as (Hv & Hs & m & Hm).
  split; [exact Hv|]. split; [exact Hs|]. exists m. split; [exact Hm|].
  unfold handleFileSelect. cbv zeta. rewrite Hv, Hm. reflexivity.
Qed.

Lemma invalid_upload_rejected_witness :
  (MAX_FILE_SIZE < file_size oversized_png)%Z /\
  isValid (validateFile oversized_png) = false /\
  handleFileSelect oversized_png (mkUpload None None) =
    mkUpload None (Some "File size exceeds 10MB limit").
Proof.
  assert (Hb : (MAX_FILE_SIZE < file_size oversized_png)%Z) by reflexivity.
  destruct (invalid_upload_rejected oversized_png (mkUpload None None) (or_introl Hb))
    as (Hv & _ & m & Hm & Hu).
  split; [exact Hb|]. split; [exact Hv|].
  rewrite Hu. vm_compute in Hm. injection Hm as <-. reflexivity.
Defined.

(* ================================================================== *)
(** * Further properties of the code *)

Lemma drop_while_suffix (p : ascii -> bool) (l : list ascii) :
  exists pre, l = pre ++ drop_while p l.
Proof.
  induction l as [|c l [pre IH]]; simpl; [exists []; reflexivity|].
  destruct (p c); [exists (c :: pre); simpl; congruence | exists []; reflexivity].
Qed.

Lemma drop_while_head (p : ascii -> bool) (l : list ascii) :
  match drop_while p l with c :: _ => p c = false | [] => True end.
Proof.
  induction l as [|c l IH]; simpl; [exact I|]. destruct (p c) eqn:E; [exact IH|exact E].
Qed.

Lemma drop_while_id (p : ascii -> bool) (l : list ascii) :
  match l with c :: _ => p c = false | [] => True end -> drop_while p l = l.
Proof. destruct l as [|c l]; simpl; [reflexivity|]. intros H. rewrite H. reflexivity. Qed.

Lemma collapse_forall (P : ascii -> Prop) (b : bool) (l : list ascii) :
  P "_"%char -> Forall P l -> Forall (fun c => P c /\ js_space c = false) (collapse_spaces_go b l).
Proof.
  intros Hu. revert b. induction l as [|c l IH]; intros b Hl; simpl; [constructor|].
  inversion Hl as [|? ? Hc Hl']; subst.
  destruct (js_space c) eqn:E; [destruct b|]; auto; constructor; auto.
Qed.

Lemma collapse_length (b : bool) (l : list ascii) :
  (List.length (collapse_spaces_go b l) <= List.length l)%nat.
Proof.
  revert b. induction l as [|c l IH]; intros b; simpl; [lia|].
  pose proof (IH true). pose proof (IH false).
  destruct (js_space c); [destruct b|]; simpl; lia.
Qed.

Lemma collapse_head (b : bool) (l : list ascii) :
  match l with c :: _ => is_dot c = false | [] => True end ->
  match collapse_spaces_go false l with c :: _ => is_dot c = false | [] => True end.
Proof.
  destruct l as [|c l]; simpl; [auto|]. intros H.
  destruct (js_space c); simpl; [reflexivity|exact H].
Qed.

Lemma collapse_nil (l : list ascii) : collapse_spaces_go false l = [] -> l = [].
Proof. destruct l as [|c l]; simpl; [auto|]. destruct (js_space c); discriminate. Qed.

Lemma collapse_last (b : bool) (l : list ascii) (x : ascii) :
  last (collapse_spaces_go b l) = Some x -> x = "_"%char \/ last l = Some x.
Proof.
  revert b. induction l as [|c l IH]; intros b H; simpl in *; [discriminate|].
  destruct (js_space c) eqn:E; [destruct b|].
  - destruct (IH true H) as [Hx|Hx]; [auto|]. right.
    destruct l; [discriminate|]. rewrite last_cons_cons. exact Hx.
  - destruct (collapse_spaces_go true l) as [|d t] eqn:Ec.
    + simpl in H. injection H as <-. auto.
    + rewrite last_cons_cons in H. rewrite <- Ec in H.
      destruct (IH true H) as [Hx|Hx]; [auto|]. right.
      destruct l; [discriminate|]. rewrite last_cons_cons. exact Hx.
  - destruct (collapse_spaces_go false l) as [|d t] eqn:Ec.
    + apply collapse_nil in Ec. subst. simpl in H. injection H as <-. auto.
    + rewrite last_cons_cons in H. rewrite <- Ec in H.
      destruct (IH false H) as [Hx|Hx]; [auto|]. right.
      destruct l; [discriminate|]. rewrite last_cons_cons. exact Hx.
Qed.

Lemma collapse_id (b : bool) (l : list ascii) :
  Forall (fun c => js_space c = false) l -> collapse_spaces_go b l = l.
Proof.
  revert b. induction l as [|c l IH]; intros b H; simpl; [reflexivity|].
  inversion H as [|? ? Hc Hl]; subst. rewrite Hc, IH; auto.
Qed.

Lemma length_list_ascii_of_string (s : string) :
  List.length (list_ascii_of_string s) = String.length s.
Proof. induction s; simpl; auto. Qed.

Lemma length_string_of_list_ascii (l : list ascii) :
  String.length (string_of_list_ascii l) = List.length l.
Proof. induction l; simpl; auto. Qed.

Lemma last_rev_head (l : list ascii) :
  last (rev l) = match l with c :: _ => Some c | [] => None end.
Proof. destruct l as [|c l]; simpl; [reflexivity|]. apply last_snoc. Qed.

Lemma rev_drop_while_prefix (p : ascii -> bool) (l : list ascii) :
  exists suf, l = rev (drop_while p (rev l)) ++ suf.
Proof.
  destruct (drop_while_suffix p (rev l)) as [pre Hp].
  exists (rev pre). rewrite <- rev_app_distr, <- Hp, rev_involutive. reflexivity.
Qed.

Lemma sanitizeFilename_shape (name : string) :
  sanitizeFilename name = EmptyString \/
  exists l, l <> [] /\ clean_filename l /\ sanitizeFilename name = string_of_list_ascii l.
Proof.
  unfold sanitizeFilename.
  destruct (String.eqb name EmptyString || (MAX_FILENAME_LENGTH <? String.length name)%nat) eqn:E;
    [left; reflexivity|].
  apply orb_false_iff in E as [_ E]. apply Nat.ltb_ge in E.
  cbv zeta.
  set (l0 := list_ascii_of_string name).
  set (l1 := List.filter (fun c => negb (dangerous_char c)) l0).
  set (l2 := drop_while is_dot l1).
  set (l3 := rev (drop_while is_dot (rev l2))).
  set (l4 := collapse_spaces l3).
  assert (H1 : Forall (fun c => dangerous_char c = false) l1).
  { apply List.Forall_forall. intros c Hc. apply List.filter_In in Hc as [_ Hc].
    destruct (dangerous_char c); [discriminate|reflexivity]. }
  assert (Hlen1 : (List.length l1 <= List.length l0)%nat) by apply List.filter_length_le.
  destruct (drop_while_suffix is_dot l1) as [pre2 Hpre2].
  assert (H2 : Forall (fun c => dangerous_char c = false) l2).
  { rewrite Hpre2 in H1. apply Forall_app in H1 as [_ H1]. exact H1. }
  assert (Hlen2 : (List.length l2 <= List.length l1)%nat).
  { pose proof (f_equal (@List.length _) Hpre2) as HL. rewrite List.length_app in HL.
    fold l2 in HL. lia. }
  destruct (rev_drop_while_prefix is_dot l2) as [suf3 Hsuf3].
  assert (H3 : Forall (fun c => dangerous_char c = false) l3).
  { rewrite Hsuf3 in H2. apply Forall_app in H2 as [H2 _]. exact H2. }
  assert (Hlen3 : (List.length l3 <= List.length l2)%nat).
  { pose proof (f_equal (@List.length _) Hsuf3) as HL. rewrite List.length_app in HL.
    fold l3 in HL. lia. }
  assert (Hhd3 : match l3 with c :: _ => is_dot c = false | [] => True end).
  { pose proof (drop_while_head is_dot l1) as Hh. fold l2 in Hh.
    rewrite Hsuf3 in Hh. fold l3 in Hh.
    destruct l3 as [|c l3']; [exact I|]. exact Hh. }
  assert (Hlast3 : match last l3 with Some c => is_dot c = false | None => True end).
  { unfold l3. rewrite last_rev_head. pose proof (drop_while_head is_dot (rev l2)) as Hd.
    destruct (drop_while is_dot (rev l2)); exact Hd. }
  assert (H4 : Forall (fun c => dangerous_char c = false /\ js_space c = false) l4).
  { apply collapse_forall; [reflexivity|exact H3]. }
  assert (Hlen4 : (List.length l4 <= MAX_FILENAME_LENGTH)%nat).
  { pose proof (collapse_length false l3).
    unfold l0 in Hlen1. rewrite length_list_ascii_of_string in Hlen1.
    unfold l4, collapse_spaces. lia. }
  assert (Hhd4 : match l4 with c :: _ => is_dot c = false | [] => True end)
    by (apply (collapse_head false); exact Hhd3).
  assert (Hlast4 : match last l4 with Some c => is_dot c = false | None => True end).
  { destruct (last l4) as [x|] eqn:Ex; [|exact I].
    destruct (collapse_last false l3 x Ex) as [->|Hx]; [reflexivity|].
    rewrite Hx in Hlast3. exact Hlast3. }
  assert (Hns : Forall (fun c => js_space c = false) l4).
  { eapply Forall_impl; [exact H4|]. intros c [_ Hc]. exact Hc. }
  rewrite (take_ge l4) by exact Hlen4.
  rewrite (drop_while_id js_space l4)
    by (destruct l4; [exact I|]; inversion Hns; assumption).
  rewrite (drop_while_id js_space (rev l4)).
  2:{ destruct (rev l4) as [|c t] eqn:Er; [exact I|].
      assert (Hin : In c l4) by (apply in_rev; rewrite Er; left; reflexivity).
      rewrite List.Forall_forall in Hns. apply Hns. exact Hin. }
  rewrite rev_involutive.
  destruct (String.eqb (string_of_list_ascii l4) EmptyString
            || String.eqb (string_of_list_ascii l4) ".") eqn:Ee; [left; reflexivity|].
  right. exists l4. apply orb_false_iff in Ee as [Ee _].
  split; [intros Hn; rewrite Hn in Ee; discriminate|].
  split; [|reflexivity]. repeat split; assumption.
Qed.

Lemma filter_all_true {A} (f : A -> bool) (l : list A) :
  Forall (fun x => f x = true) l -> List.filter f l = l.
Proof. induction 1 as [|x l Hx _ IH]; simpl; [reflexivity|]. rewrite Hx, IH. reflexivity. Qed.

Lemma sanitizeFilename_clean_fixed (l : list ascii) :
  l <> [] -> clean_filename l -> sanitizeFilename (string_of_list_ascii l) = string_of_list_ascii l.
Proof.
  intros Hne (Hf & Hlen & Hhd & Hlast).
  assert (Hns : Forall (fun c => js_space c = false) l)
    by (eapply Forall_impl; [exact Hf|]; intros c [_ Hc]; exact Hc).
  assert (Hrev : forall p, Forall (fun c => p c = false) l -> drop_while p (rev l) = rev l).
  { intros p Hp. apply drop_while_id. destruct (rev l) as [|c t] eqn:Er; [exact I|].
    assert (Hin : In c l) by (apply in_rev; rewrite Er; left; reflexivity).
    rewrite List.Forall_forall in Hp. apply Hp. exact Hin. }
  unfold sanitizeFilename.
  rewrite length_string_of_list_ascii.
  replace (String.eqb (string_of_list_ascii l) EmptyString) with false
    by (destruct l; [congruence|reflexivity]).
  replace (MAX_FILENAME_LENGTH <? List.length l)%nat with false
    by (symmetry; apply Nat.ltb_ge; exact Hlen).
  cbv zeta. simpl orb. cbv iota.
  rewrite list_ascii_of_string_of_list_ascii.
  rewrite filter_all_true
    by (eapply Forall_impl; [exact Hf|]; intros c [Hc _]; rewrite Hc; reflexivity).
  rewrite (drop_while_id is_dot l) by exact Hhd.
  rewrite (drop_while_id is_dot (rev l)).
  2:{ pose proof (last_rev_head (rev l)) as Hl. rewrite rev_involutive in Hl.
      destruct (rev l) as [|c t]; [exact I|]. rewrite Hl in Hlast. exact Hlast. }
  rewrite rev_involutive.
  unfold collapse_spaces. rewrite collapse_id by exact Hns.
  rewrite take_ge by exact Hlen.
  rewrite (drop_while_id js_space l) by (destruct l; [exact I|]; inversion Hns; assumption).
  rewrite Hrev by exact Hns. rewrite rev_involutive.
  destruct (String.eqb_spec (string_of_list_ascii l) "."%string) as [Hd|Hd].
  - exfalso. apply (f_equal list_ascii_of_string) in Hd.
    rewrite list_ascii_of_string_of_list_ascii in Hd. subst l. discriminate.
  - destruct l; [congruence|]. reflexivity.
Qed.

(** X1: [sanitizeFilename] always returns a name with no dangerous
    character (angle brackets, colon, double quote, slash, backslash, bar,
    question mark, star or a control character), no whitespace, at most 255
    characters, and no leading or trailing dot; sanitizing its result again
    changes nothing. *)
Theorem sanitizeFilename_safe_idempotent (filename : string) :
  clean_filename (list_ascii_of_string (sanitizeFilename filename)) /\
  sanitizeFilename (sanitizeFilename filename) = sanitizeFilename filename.
Proof.
  destruct (sanitizeFilename_shape filename) as [He|(l & Hne & Hc & He)]; rewrite He.
  - split; [|reflexivity]. repeat split; simpl; auto. unfold MAX_FILENAME_LENGTH. lia.
  - rewrite list_ascii_of_string_of_list_ascii. split; [exact Hc|].
    apply sanitizeFilename_clean_fixed; assumption.
Qed.

Lemma checkSignature_prefix (bytes signature : list Z) :
  checkSignature bytes signature = true <-> signature `prefix_of` bytes.
Proof.
  revert bytes. induction signature as [|s sig IH]; intros bytes; simpl.
  - split; [intros _; exists bytes; reflexivity|destruct bytes; reflexivity].
  - destruct bytes as [|b bytes].
    + split; [discriminate|]. intros [k Hk]. discriminate.
    + cbn [checkSignature]. rewrite andb_true_iff, Z.eqb_eq, IH. split.
      * intros [-> [k Hk]]. exists k. simpl. congruence.
      * intros [k Hk]. injection Hk as -> Hk. split; [reflexivity|]. exists k. exact Hk.
Qed.

Lemma prefix_take_iff (sig l : list Z) (n : nat) :
  (List.length sig <= n)%nat -> sig `prefix_of` take n l <-> sig `prefix_of` l.
Proof.
  intros Hn. split.
  - intros H. etransitivity; [exact H|]. apply prefix_take.
  - intros [k ->]. rewrite take_app. rewrite take_ge by lia.
    eexists. reflexivity.
Qed.

(** X2: [validateMagicNumber] accepts a file exactly when its declared
    type is JPEG (image/jpeg or image/jpg) and its bytes start with
    FF D8 FF, or PNG with the 8-byte PNG signature, or PDF with [%PDF];
    the Exif and JFIF variants accept nothing more than FF D8 FF. *)
Theorem validateMagicNumber_signature (f : upload_file) :
  validateMagicNumber f = true <->
  ((file_type f = "image/jpeg"%string \/ file_type f = "image/jpg"%string) /\
     sig_jpeg `prefix_of` file_head f) \/
  (file_type f = "image/png"%string /\ sig_png `prefix_of` file_head f) \/
  (file_type f = "application/pdf"%string /\ sig_pdf `prefix_of` file_head f).
Proof.
  assert (Hj : checkSignature (take 16 (file_head f)) sig_jpeg
               || checkSignature (take 16 (file_head f)) sig_jpegExif
               || checkSignature (take 16 (file_head f)) sig_jpegJfif = true
               <-> sig_jpeg `prefix_of` file_head f).
  { rewrite !orb_true_iff, !checkSignature_prefix, !prefix_take_iff by (simpl; lia).
    split; [|tauto]. intros [[H|H]|H];
      [exact H | etransitivity; [exists [225%Z]; reflexivity|exact H]
      | etransitivity; [exists [224%Z]; reflexivity|exact H]]. }
  assert (Hp : forall sig, (List.length sig <= 16)%nat ->
     checkSignature (take 16 (file_head f)) sig = true <-> sig `prefix_of` file_head f).
  { intros sig Hs. rewrite checkSignature_prefix. apply prefix_take_iff. exact Hs. }
  unfold validateMagicNumber. cbv zeta.
  destruct (String.eqb_spec (file_type f) "image/jpeg") as [E|E].
  { rewrite Hj. rewrite E. split; [intros H; left; auto|].
    intros [[_ H]|[[H _]|[H _]]]; [exact H|discriminate|discriminate]. }
  destruct (String.eqb_spec (file_type f) "image/jpg") as [E2|E2].
  { rewrite Hj. rewrite E2. split; [intros H; left; auto|].
    intros [[_ H]|[[H _]|[H _]]]; [exact H|discriminate|discriminate]. }
  destruct (String.eqb_spec (file_type f) "image/png") as [E3|E3].
  { rewrite Hp by (simpl; lia). rewrite E3. split; [intros H; right; left; auto|].
    intros [[[H|H] _]|[[_ H]|[H _]]]; [discriminate|discriminate|exact H|discriminate]. }
  destruct (String.eqb_spec (file_type f) "application/pdf") as [E4|E4].
  { rewrite Hp by (simpl; lia). rewrite E4. split; [intros H; right; right; auto|].
    intros [[[H|H] _]|[[H _]|[_ H]]]; [discriminate|discriminate|discriminate|exact H]. }
  split; [discriminate|]. intros [[[H|H] _]|[[H _]|[H _]]]; congruence.
Qed.

Lemma existsb_eqb_string_In (x : string) (l : list string) :
  existsb (String.eqb x) l = true <-> In x l.
Proof.
  rewrite existsb_exists. split.
  - intros (y & Hy & E). apply String.eqb_eq in E. subst. exact Hy.
  - intros H. exists x. split; [exact H|]. apply String.eqb_refl.
Qed.

(** X3: [validateFile] accepts a file exactly when its size is at most
    10 MB and not zero, its sanitized name is not empty, its type is one of
    the allowed MIME types, and its signature and content checks pass. An
    accepted file is returned under its sanitized name, and
    [handleFileSelect] selects that file and reports success. *)
Theorem validateFile_accepted (f : upload_file) (st : upload_state) :
  (isValid (validateFile f) = true <->
     (file_size f <= MAX_FILE_SIZE)%Z /\ file_size f <> 0%Z /\
     sanitizeFilename (file_name f) <> EmptyString /\
     In (file_type f) ALLOWED_MIME_TYPES /\
     validateMagicNumber f = true /\ validateFileContent f = true) /\
  (isValid (validateFile f) = true ->
     let f' := mkFile (file_size f) (sanitizeFilename (file_name f)) (file_type f)
                      (file_head f) (image_decode f) in
     validateFile f = mkValidation true None (Some f') /\
     handleFileSelect f st = mkUpload (Some f') (Some "File validated and selected successfully")).
Proof.
  assert (Hv : isValid (validateFile f) = true ->
     (file_size f <= MAX_FILE_SIZE)%Z /\ file_size f <> 0%Z /\
     sanitizeFilename (file_name f) <> EmptyString /\
     In (file_type f) ALLOWED_MIME_TYPES /\
     validateMagicNumber f = true /\ validateFileContent f = true /\
     validateFile f = mkValidation true None
       (Some (mkFile (file_size f) (sanitizeFilename (file_name f)) (file_type f)
                     (file_head f) (image_decode f)))).
  { unfold validateFile.
    destruct (MAX_FILE_SIZE <? file_size f)%Z eqn:E1; [discriminate|].
    destruct (file_size f =? 0)%Z eqn:E2; [discriminate|]. cbv zeta.
    destruct (String.eqb (sanitizeFilename (file_name f)) EmptyString) eqn:E3; [discriminate|].
    destruct (existsb (String.eqb (file_type f)) ALLOWED_MIME_TYPES) eqn:E4; [|discriminate].
    destruct (validateMagicNumber f) eqn:E5; [|discriminate].
    destruct (validateFileContent f) eqn:E6; [|discriminate].
    intros _. apply Z.ltb_ge in E1. apply Z.eqb_neq in E2. apply String.eqb_neq in E3.
    apply existsb_eqb_string_In in E4.
    split; [exact E1|]. split; [exact E2|]. split; [exact E3|]. split; [exact E4|].
    split; [reflexivity|]. split; [reflexivity|]. cbn [negb].
    destruct (String.eqb_spec (sanitizeFilename (file_name f)) (file_name f)) as [Ee|Ee];
      [|reflexivity].
    rewrite Ee. destruct f; reflexivity. }
  split; [split|].
  - intros H. destruct (Hv H) as (? & ? & ? & ? & ? & ? & _). tauto.
  - intros (H1 & H2 & H3 & H4 & H5 & H6). unfold validateFile.
    apply Z.ltb_ge in H1. rewrite H1. apply Z.eqb_neq in H2. rewrite H2. cbv zeta.
    apply String.eqb_neq in H3. rewrite H3. apply existsb_eqb_string_In in H4. rewrite H4.
    rewrite H5, H6. reflexivity.
  - intros H. destruct (Hv H) as (_ & _ & _ & _ & _ & _ & He). cbv zeta.
    split; [exact He|]. unfold handleFileSelect. cbv zeta. rewrite He. reflexivity.
Qed.

(** X4: [analyzeFloorplan] fails with "Unsupported file type" exactly for a
    type that is neither image/* nor a PDF, with the PDF message exactly
    when a PDF cannot be rendered, and with "Unknown error occurred"
    exactly when the converted image does not load; otherwise it succeeds,
    whatever the models do. *)
Theorem analyzeFloorplan_failures (file_type : string) (env : ai_env) :
  (analyzeFloorplan file_type env = mkResult false None (Some "Unsupported file type") <->
     String.prefix "image/" file_type = false /\ file_type <> "application/pdf"%string) /\
  (analyzeFloorplan file_type env =
     mkResult false None (Some "Failed to process PDF. Please upload a JPEG or PNG.") <->
     file_type = "application/pdf"%string /\ exists m, env_pdf_render env = Throws m) /\
  (analyzeFloorplan file_type env = mkResult false None (Some "Unknown error occurred") <->
     convertToImage file_type env = Ok tt /\ env_load_image env = None) /\
  (success (analyzeFloorplan file_type env) = true <->
     convertToImage file_type env = Ok tt /\ env_load_image env <> None).
Proof.
  unfold analyzeFloorplan, convertToImage.
  assert (Hs : forall img, exists d,
     (if env_models_ready env then mkResult true (Some (performAnalysis env img)) None
      else mkResult true (Some (synthetic_data img)) None) = mkResult true (Some d) None)
    by (intros img; destruct (env_models_ready env); eauto).
  destruct (String.prefix "image/" file_type) eqn:Ei;
    [|destruct (String.eqb_spec file_type "application/pdf") as [Ep|Ep];
      [subst file_type; destruct (env_pdf_render env) as [u|m] eqn:Er|]];
    try destruct (env_load_image env) as [img|] eqn:El;
    try (destruct (Hs img) as [d Hd]; rewrite Hd);
    repeat split; intros;
    repeat match goal with H : _ /\ _ |- _ => destruct H | H : exists _, _ |- _ => destruct H end;
    try discriminate; try congruence; eauto;
    try (subst file_type; vm_compute in Ei; discriminate).
Qed.

Lemma processDetectionResults_rooms_gen (objectResults : list detection) (img : image) :
  (exists el, In el (processDetectionResults objectResults img) /\ el_type el = ERoom) /\
  Forall (fun el => 3 # 10 < el_confidence el) (processDetectionResults objectResults img) /\
  (List.length (processDetectionResults objectResults img) <= List.length objectResults + 3)%nat.
Proof.
  unfold processDetectionResults. cbv zeta.
  set (detected := List.filter (fun el : FloorplanElement =>
    if Qlt_le_dec (3 # 10) (el_confidence el) then true else false) _).
  assert (Hconf : Forall (fun el => 3 # 10 < el_confidence el) detected).
  { apply List.Forall_forall. intros el Hin. apply List.filter_In in Hin as [_ Hin].
    cbv beta in Hin. revert Hin. destruct (Qlt_le_dec (3 # 10) (el_confidence el)); [auto|discriminate]. }
  assert (Hlen : (List.length detected <= List.length objectResults)%nat).
  { etransitivity; [apply List.filter_length_le|]. rewrite length_imap. lia. }
  destruct (Nat.eqb (List.length (List.filter is_room_element detected)) 0) eqn:E.
  - split; [|split].
    + eexists. split; [apply in_or_app; right; left; reflexivity|reflexivity].
    + apply Forall_app. split; [exact Hconf|].
      repeat constructor; simpl; unfold Qlt; simpl; lia.
    + rewrite List.length_app. simpl. lia.
  - split; [|split; [exact Hconf|lia]].
    destruct (List.filter is_room_element detected) as [|el rest] eqn:Ef; [discriminate|].
    assert (Hin : In el (List.filter is_room_element detected)) by (rewrite Ef; left; reflexivity).
    apply List.filter_In in Hin as [Hin Hr]. exists el. split; [exact Hin|].
    unfold is_room_element in Hr. destruct (el_type el); congruence.
Qed.

(** X5: [processDetectionResults] always returns at least one room, keeps
    only elements whose confidence is above 0.3, and returns at most three
    more elements than there were detections. *)
Theorem processDetectionResults_rooms (objectResults : list detection) (img : image) :
  (exists el, In el (processDetectionResults objectResults img) /\ el_type el = ERoom) /\
  Forall (fun el => 3 # 10 < el_confidence el) (processDetectionResults objectResults img) /\
  (List.length (processDetectionResults objectResults img) <= List.length objectResults + 3)%nat.
Proof. exact (processDetectionResults_rooms_gen objectResults img). Qed.

(** X6: whenever [analyzeFloorplan] succeeds, its data holds a room, every
    element has confidence above 0.3, and the reported dimensions are the
    natural size of the loaded image. *)
Theorem analyzeFloorplan_data_has_room (file_type : string) (env : ai_env) (d : analysis_data)
    (Hok : analyzeFloorplan file_type env = mkResult true (Some d) None) :
  (exists el, In el (elements d) /\ el_type el = ERoom) /\
  Forall (fun el => 3 # 10 < el_confidence el) (elements d) /\
  (exists img, env_load_image env = Some img /\ dim_width d = naturalWidth img /\
               dim_height d = naturalHeight img).
Proof.
  assert (Hsyn : forall img, (exists el, In el (elements (synthetic_data img)) /\ el_type el = ERoom) /\
     Forall (fun el => 3 # 10 < el_confidence el) (elements (synthetic_data img))).
  { intros img. split; [eexists; split; [left; reflexivity|reflexivity]|].
    repeat constructor; simpl; unfold Qlt; simpl; lia. }
  unfold analyzeFloorplan in Hok.
  destruct (convertToImage file_type env); [|discriminate].
  destruct (env_load_image env) as [img|] eqn:El; [|discriminate].
  assert (Hd : d = performAnalysis env img \/ d = synthetic_data img)
    by (destruct (env_models_ready env); injection Hok as <-; auto).
  split; [|split]; [| |exists img; split; [reflexivity|]];
    (destruct Hd as [->| ->]; [unfold performAnalysis;
       destruct (env_detect env) as [dets|m]; [destruct (env_segment env)|] |]).
  all: try (apply Hsyn); try (split; reflexivity);
       try (apply (processDetectionResults_rooms_gen dets img)).
Qed.

Lemma validateFloorplanElement_ai_element S A P (el : FloorplanElement) :
  validateFloorplanElement S A P (element_value el) = None.
Proof. destruct el as [t c l conf]; destruct t, l; reflexivity. Qed.

Lemma sanitizeNumber_Q S A (q lo hi : Q) :
  sanitizeNumber S A (JNumber (JQ q)) lo hi =
  if Qle_bool lo q && Qle_bool q hi then Some (JQ q) else None.
Proof.
  unfold sanitizeNumber; cbn; unfold Qlt_bool.
  destruct (Qle_bool lo q), (Qle_bool q hi); reflexivity.
Qed.

Lemma validateFloorplanData_analysis_value S A P (d : analysis_data) :
  exists v, validateFloorplanData S A P (analysis_value d) = Some v /\
    vd_elements v = [] /\
    (vd_width v, vd_height v) =
      (if Qle_bool 100 (dim_width d) && Qle_bool (dim_width d) 10000 &&
          Qle_bool 100 (dim_height d) && Qle_bool (dim_height d) 10000
       then (JQ (dim_width d), JQ (dim_height d)) else (JQ 0, JQ 0)).
Proof.
  destruct d as [els w h sc]; unfold validateFloorplanData; cbn -[sanitizeNumber omap].
  rewrite !sanitizeNumber_Q.
  assert (Hel : omap (validateFloorplanElement S A P) (map element_value els) = []).
  { induction els as [|el els IH]; [reflexivity|].
    destruct el as [[] c [] conf]; exact IH. }
  destruct (Qle_bool 100 w) eqn:E1, (Qle_bool w 10000), (Qle_bool 100 h) eqn:E2, (Qle_bool h 10000);
    cbn -[omap sanitizeNumber];
    try (apply Qle_bool_iff in E1, E2;
         destruct (Qeq_bool w 0) eqn:E3; [apply Qeq_bool_iff in E3; lra|];
         destruct (Qeq_bool h 0) eqn:E4; [apply Qeq_bool_iff in E4; lra|]);
    cbn -[omap sanitizeNumber]; eexists; (split; [reflexivity|]); split; first [exact Hel | reflexivity].
Qed.

(** X7: [validateFloorplanData] applied to the data [analyzeFloorplan]
    produces returns an object with no elements: each element carries its
    coordinates as an object [{x, y, width, height}], and
    [validateFloorplanElement] drops any element whose coordinates are not
    an array. The dimensions are kept when both lie in [100, 10000], and are
    0 x 0 otherwise. This holds for any host [Number] and [DOMPurify]. *)
Theorem validateFloorplanData_drops_ai_elements S A P (d : analysis_data) :
  exists v, validateFloorplanData S A P (analysis_value d) = Some v /\
    vd_elements v = [] /\
    (vd_width v, vd_height v) =
      (if Qle_bool 100 (dim_width d) && Qle_bool (dim_width d) 10000 &&
          Qle_bool 100 (dim_height d) && Qle_bool (dim_height d) 10000
       then (JQ (dim_width d), JQ (dim_height d)) else (JQ 0, JQ 0)).
Proof. exact (validateFloorplanData_analysis_value S A P d). Qed.

(** X8: [handleAnalyze] never hands an element to [onFloorplanAnalyzed]:
    either nothing new is delivered, or the delivered data has an empty
    element list. *)
Theorem handleAnalyze_never_delivers_elements S A P env st :
  dlg_analyzed (handleAnalyze S A P env st) = dlg_analyzed st \/
  exists v, dlg_analyzed (handleAnalyze S A P env st) = Some v /\ vd_elements v = [].
Proof.
  unfold handleAnalyze.
  destruct (dlg_file st) as [f|]; [|left; reflexivity].
  destruct (analyzeFloorplan (file_type f) env) as [ok [d|] err]; cbn [success data].
  - destruct ok; [|left; reflexivity].
    destruct (validateFloorplanData_analysis_value S A P d) as (v & Hv & Hel & _).
    rewrite Hv. right. exists v. auto.
  - destruct ok; left; reflexivity.
Qed.

(** X9: with a file selected whose conversion succeeds and whose image
    loads, [handleAnalyze] reports success, clears [isAnalyzing] and
    [progress], calls [onClose], and delivers data with no elements. *)
Theorem handleAnalyze_delivers_empty_plan S A P env st f
  (Hfile : dlg_file st = Some f)
  (Hconv : convertToImage (file_type f) env = Ok tt)
  (Hload : env_load_image env <> None) :
  exists v,
    handleAnalyze S A P env st =
      mkDialog (Some f) false 0 (Some "Floorplan analyzed and validated successfully!"%string) (Some v) true /\
    vd_elements v = [].
Proof.
  unfold handleAnalyze, analyzeFloorplan. rewrite Hfile, Hconv.
  destruct (env_load_image env) as [img|]; [|congruence].
  destruct (env_models_ready env); cbn [success data];
    match goal with |- context [validateFloorplanData S A P (analysis_value ?d)] =>
      destruct (validateFloorplanData_analysis_value S A P d) as (v & Hv & Hel & _) end;
    rewrite Hv; exists v; auto.
Qed.

Lemma filter_bool (f : nat -> bool) (l : list nat) : filter f l = List.filter f l.
Proof.
  induction l as [|x l IH]; [reflexivity|].
  rewrite filter_cons. cbn [List.filter]. rewrite <- IH.
  case_decide as Hd; destruct (f x) eqn:E; try reflexivity; contradiction || (exfalso; apply Hd; exact I).
Qed.

Lemma filter_remove_first (f g : nat -> bool) (r : nat) (l : list nat) :
  List.NoDup l -> In r l -> g r = false -> (forall x, x <> r -> f x = g x) ->
  List.filter f (remove_first r l) = List.filter g l.
Proof.
  intros Hnd Hin Hg Hfg. induction l as [|y l IH]; [destruct Hin|].
  inversion Hnd as [|? ? Hy Hnd']; subst.
  cbn [remove_first List.filter]. destruct (Nat.eqb r y) eqn:E.
  - apply Nat.eqb_eq in E. subst y. rewrite Hg.
    apply List.filter_ext_in. intros x Hx. apply Hfg. intros ->. contradiction.
  - apply Nat.eqb_neq in E. destruct Hin as [->|Hin]; [congruence|].
    cbn [List.filter]. rewrite (Hfg y) by congruence. rewrite IH by assumption. reflexivity.
Qed.

Lemma NoDup_bring (r : nat) (l : list nat) :
  List.NoDup l -> In r l -> List.NoDup (remove_first r l ++ [r]).
Proof.
  intros Hnd Hin. apply List.NoDup_app.
  - apply remove_first_NoDup, Hnd.
  - repeat constructor. intros [].
  - intros x Hx [<-|[]]. eapply remove_first_not_In; [exact Hnd|exact Hx|reflexivity].
Qed.

Section FoldBring.
Variable P : scene -> nat -> bool.
Hypothesis P_heap : forall s1 s2 r, heap s1 = heap s2 -> P s1 r = P s2 r.

Lemma fold_bring_objects (rs : list nat) (s : scene) :
  List.NoDup rs -> List.NoDup (objects s) ->
  (forall r, In r rs -> P s r = true -> In r (objects s)) ->
  let s' := fold_left (fun s r => if P s r then bringObjectToFront r s else s) rs s in
  heap s' = heap s /\
  objects s' = List.filter (fun x => negb (P s x && existsb (Nat.eqb x) rs)) (objects s) ++
               List.filter (P s) rs.
Proof.
  revert s. induction rs as [|r rs IH]; intros s Hrs Hnd Hsub; cbv zeta.
  - cbn. split; [reflexivity|]. rewrite app_nil_r.
    induction (objects s) as [|x l IHl]; [reflexivity|].
    cbn. rewrite andb_false_r. cbn. f_equal. apply IHl; [inversion Hnd; assumption|intros ? []].
  - inversion Hrs as [|? ? Hr Hrs']; subst.
    cbn [fold_left].
    destruct (P s r) eqn:Pr.
    + assert (Hin : In r (objects s)) by (apply Hsub; [left; reflexivity|exact Pr]).
      pose proof (bringObjectToFront_store r s) as (Hh & _).
      assert (Ho : objects (bringObjectToFront r s) = remove_first r (objects s) ++ [r]).
      { unfold bringObjectToFront. replace (existsb (Nat.eqb r) (objects s)) with true; [reflexivity|].
        symmetry. apply existsb_exists. exists r. split; [exact Hin|apply Nat.eqb_refl]. }
      destruct (IH (bringObjectToFront r s)) as (IHh & IHo); [exact Hrs'|rewrite Ho; apply NoDup_bring; assumption| |].
      { intros r' Hr' Pr'. rewrite Ho. apply in_or_app. left. apply remove_first_keep.
        - intros ->. contradiction.
        - apply Hsub; [right; exact Hr'|]. rewrite <- Pr'. apply P_heap. symmetry. exact Hh. }
      cbv zeta in IHh, IHo. rewrite IHh, Hh. split; [reflexivity|].
      rewrite IHo, Ho. cbn [List.filter]. rewrite Pr.
      rewrite List.filter_app. cbn [List.filter].
      assert (Er : existsb (Nat.eqb r) rs = false).
      { destruct (existsb (Nat.eqb r) rs) eqn:E; [|reflexivity]. exfalso. apply Hr.
        apply existsb_eqb_In, E. }
      rewrite (P_heap _ s r Hh), Pr, Er. cbn. rewrite <- app_assoc. cbn.
      f_equal; [|f_equal; apply List.filter_ext; intros x; apply P_heap, Hh].
      apply filter_remove_first; [exact Hnd|exact Hin| |].
      * rewrite Pr. cbn. rewrite Nat.eqb_refl. reflexivity.
      * intros x Hx. rewrite (P_heap _ s x Hh). cbn. apply Nat.eqb_neq in Hx. rewrite Hx. reflexivity.
    + destruct (IH s) as (IHh & IHo); [exact Hrs'|exact Hnd| |].
      { intros r' Hr' Pr'. apply Hsub; [right; exact Hr'|exact Pr']. }
      cbv zeta in IHh, IHo. rewrite IHh. split; [reflexivity|].
      rewrite IHo. cbn [List.filter]. rewrite Pr. f_equal.
      apply List.filter_ext. intros x. cbn.
      destruct (Nat.eqb x r) eqn:E; [|reflexivity].
      apply Nat.eqb_eq in E. subst x. rewrite Pr. reflexivity.
Qed.
End FoldBring.

Lemma is_furniture_ref_heap (s1 s2 : scene) (r : nat) :
  heap s1 = heap s2 -> is_furniture_ref s1 r = is_furniture_ref s2 r.
Proof. intros H. unfold is_furniture_ref, obj_at. rewrite H. reflexivity. Qed.

Lemma filter_in_self (f : nat -> bool) (l : list nat) :
  List.filter (fun x => negb (f x && existsb (Nat.eqb x) l)) l = List.filter (fun x => negb (f x)) l.
Proof.
  apply List.filter_ext_in. intros x Hx.
  replace (existsb (Nat.eqb x) l) with true; [rewrite andb_true_r; reflexivity|].
  symmetry. apply existsb_exists. exists x. split; [exact Hx|apply Nat.eqb_refl].
Qed.

Lemma raise_furniture_order (s : scene) :
  List.NoDup (objects s) ->
  heap (raise_furniture s) = heap s /\
  objects (raise_furniture s) =
    List.filter (fun r => negb (is_furniture_ref s r)) (objects s) ++
    List.filter (is_furniture_ref s) (objects s).
Proof.
  intros Hnd. unfold raise_furniture.
  assert (Hf : forall l s0,
    fold_left (fun s r => match obj_at s r with
                          | Some o => if isFurniture o then bringObjectToFront r s else s
                          | None => s end) l s0 =
    fold_left (fun s r => if is_furniture_ref s r then bringObjectToFront r s else s) l s0).
  { induction l as [|r l IH]; intros s0; [reflexivity|]. cbn [fold_left]. rewrite IH.
    unfold is_furniture_ref. destruct (obj_at s0 r) as [o|]; reflexivity. }
  rewrite Hf.
  destruct (fold_bring_objects is_furniture_ref is_furniture_ref_heap (objects s) s Hnd Hnd)
    as (Hh & Ho); [intros r Hr _; exact Hr|].
  cbv zeta in Hh, Ho. split; [exact Hh|]. rewrite Ho, filter_in_self. reflexivity.
Qed.

(** X10: re-raising the furniture (the loop of [handleSendToBack]) puts
    every furniture object above every other object and keeps the relative
    order within each of the two groups. *)
Theorem raise_furniture_partition (s : scene) (Hnd : List.NoDup (objects s)) :
  heap (raise_furniture s) = heap s /\
  objects (raise_furniture s) =
    List.filter (fun r => negb (is_furniture_ref s r)) (objects s) ++
    List.filter (is_furniture_ref s) (objects s).
Proof. exact (raise_furniture_order s Hnd). Qed.

Lemma index_of_app (t : nat) (X Y : list nat) :
  ~ In t X -> index_of t (X ++ t :: Y) = Some (List.length X).
Proof.
  induction X as [|x X IH]; intros Hx; cbn.
  - rewrite Nat.eqb_refl. reflexivity.
  - destruct (Nat.eqb t x) eqn:E; [apply Nat.eqb_eq in E; subst; destruct Hx; left; reflexivity|].
    rewrite IH; [reflexivity|]. intros H. apply Hx. right. exact H.
Qed.

Lemma remove_first_app (t : nat) (X Y : list nat) :
  ~ In t X -> remove_first t (X ++ t :: Y) = X ++ Y.
Proof.
  induction X as [|x X IH]; intros Hx; cbn.
  - rewrite Nat.eqb_refl. reflexivity.
  - destruct (Nat.eqb t x) eqn:E; [apply Nat.eqb_eq in E; subst; destruct Hx; left; reflexivity|].
    rewrite IH; [reflexivity|]. intros H. apply Hx. right. exact H.
Qed.

Lemma filter_not_In (f : nat -> bool) (t : nat) (l : list nat) :
  ~ In t l -> ~ In t (List.filter f l).
Proof. intros H Hin. apply List.filter_In in Hin. apply H, Hin. Qed.

Lemma bring_objects (r : nat) (s : scene) :
  In r (objects s) -> objects (bringObjectToFront r s) = remove_first r (objects s) ++ [r].
Proof.
  intros Hin. unfold bringObjectToFront.
  replace (existsb (Nat.eqb r) (objects s)) with true; [reflexivity|].
  symmetry. apply existsb_exists. exists r. split; [exact Hin|apply Nat.eqb_refl].
Qed.

(** X11: bring-to-front on a furniture object puts it on top, and puts all
    other furniture above all non-furniture objects; each group keeps its
    relative order. *)
Theorem handleBringToFront_furniture (e : editor) (t : nat)
  (Hctx : contextTarget e = Some t)
  (Hf : is_furniture_ref (scn e) t = true)
  (Hin : In t (objects (scn e)))
  (Hnd : List.NoDup (objects (scn e))) :
  heap (scn (handleBringToFront e)) = heap (scn e) /\
  objects (scn (handleBringToFront e)) =
    List.filter (fun r => negb (is_furniture_ref (scn e) r)) (objects (scn e)) ++
    List.filter (fun r => is_furniture_ref (scn e) r && negb (Nat.eqb r t)) (objects (scn e)) ++
    [t].
Proof.
  set (l := objects (scn e)) in *.
  set (P := fun s r => is_furniture_ref s r && negb (Nat.eqb r t)).
  assert (P_heap : forall s1 s2 r, heap s1 = heap s2 -> P s1 r = P s2 r).
  { intros s1 s2 r H. unfold P. rewrite (is_furniture_ref_heap _ _ r H). reflexivity. }
  unfold handleBringToFront. rewrite Hctx.
  set (s1 := bringObjectToFront t (scn e)).
  pose proof (bringObjectToFront_store t (scn e)) as (Hh1 & _). fold s1 in Hh1.
  assert (Ho1 : objects s1 = remove_first t l ++ [t]) by (apply bring_objects, Hin).
  assert (Hnd1 : List.NoDup (objects s1)) by (rewrite Ho1; apply NoDup_bring; assumption).
  rewrite (is_furniture_ref_heap s1 (scn e) t Hh1), Hf.
  change (fun s r => is_furniture_ref s r && negb (Nat.eqb r t)) with P.
  destruct (fold_bring_objects P P_heap (objects s1) s1 Hnd1 Hnd1) as (Hh2 & Ho2);
    [intros r Hr _; exact Hr|].
  cbv zeta in Hh2, Ho2. rewrite filter_in_self in Ho2.
  set (s2 := fold_left _ (objects s1) s1) in *.
  assert (Pt : P s1 t = false) by (unfold P; rewrite Nat.eqb_refl, andb_false_r; reflexivity).
  assert (Hnt : ~ In t (remove_first t l)).
  { intros H. eapply remove_first_not_In; [exact Hnd|exact H|reflexivity]. }
  assert (E1 : List.filter (fun x => negb (P s1 x)) (remove_first t l) =
               List.filter (fun r => negb (is_furniture_ref (scn e) r)) l).
  { apply filter_remove_first; [exact Hnd|exact Hin|rewrite Hf; reflexivity|].
    intros x Hx. unfold P. rewrite (is_furniture_ref_heap _ _ x Hh1).
    apply Nat.eqb_neq in Hx. rewrite Hx, andb_true_r. reflexivity. }
  assert (E2 : List.filter (P s1) (remove_first t l) =
               List.filter (fun r => is_furniture_ref (scn e) r && negb (Nat.eqb r t)) l).
  { apply filter_remove_first; [exact Hnd|exact Hin| |].
    - rewrite Nat.eqb_refl, andb_false_r. reflexivity.
    - intros x _. unfold P. rewrite (is_furniture_ref_heap _ _ x Hh1). reflexivity. }
  assert (Ho2' : objects s2 = List.filter (fun x => negb (P s1 x)) (remove_first t l) ++
                              t :: List.filter (P s1) (remove_first t l)).
  { rewrite Ho2, Ho1, !List.filter_app. cbn [List.filter]. rewrite Pt. cbn.
    rewrite app_nil_r, <- app_assoc. reflexivity. }
  cbn [scn with_scene]. split.
  - pose proof (bringObjectToFront_store t s2) as (H & _). rewrite H, Hh2. exact Hh1.
  - rewrite bring_objects by (rewrite Ho2'; apply in_or_app; right; left; reflexivity).
    rewrite Ho2', remove_first_app by (apply filter_not_In, Hnt).
    rewrite E1, E2, <- app_assoc. reflexivity.
Qed.

(** X12: send-to-back on a furniture object [t] that has object [y]
    directly beneath it swaps [t] and [y], then raises all furniture above
    all other objects. So [t] only moves below another furniture item when
    that item is directly beneath it; a room or grid line beneath it leaves
    the furniture order unchanged. *)
Theorem handleSendToBack_furniture (e : editor) (t y : nat) (A B : list nat)
  (Hctx : contextTarget e = Some t)
  (Hf : is_furniture_ref (scn e) t = true)
  (Hl : objects (scn e) = A ++ y :: t :: B)
  (Hnd : List.NoDup (objects (scn e))) :
  heap (scn (handleSendToBack e)) = heap (scn e) /\
  objects (scn (handleSendToBack e)) =
    List.filter (fun r => negb (is_furniture_ref (scn e) r)) (A ++ t :: y :: B) ++
    List.filter (is_furniture_ref (scn e)) (A ++ t :: y :: B).
Proof.
  set (q := is_furniture_ref (scn e)) in *.
  assert (HtA : ~ In t A).
  { rewrite Hl in Hnd.
    replace (A ++ y :: t :: B) with ((A ++ [y]) ++ t :: B) in Hnd by (rewrite <- app_assoc; reflexivity).
    apply List.NoDup_remove_2 in Hnd. intros H. apply Hnd.
    apply in_or_app. left. apply in_or_app. left. exact H. }
  assert (Hty : t <> y).
  { intros ->. rewrite Hl in Hnd. apply List.NoDup_remove_2 in Hnd. apply Hnd.
    apply in_or_app. right. left. reflexivity. }
  assert (Hnd' : List.NoDup (A ++ t :: y :: B)).
  { rewrite Hl in Hnd. eapply Permutation_NoDup; [|exact Hnd].
    apply Permutation_app_head. apply perm_swap. }
  unfold handleSendToBack. rewrite Hctx. fold q. rewrite Hf, filter_bool, Hl.
  assert (Hfy : List.filter q (A ++ y :: t :: B) =
                (List.filter q A ++ (if q y then [y] else [])) ++ t :: List.filter q B).
  { rewrite List.filter_app. cbn [List.filter]. fold q. rewrite Hf.
    destruct (q y); cbn; rewrite <- app_assoc; reflexivity. }
  rewrite Hfy, index_of_app.
  2:{ intros H. apply in_app_or in H as [H|H]; [eapply filter_not_In; [exact HtA|exact H]|].
      destruct (q y); [destruct H as [H|[]]; congruence|destruct H]. }
  destruct (List.length (List.filter q A ++ (if q y then [y] else []))) as [|k] eqn:Ek.
  - apply length_zero_iff_nil, app_eq_nil in Ek as [EA Ey].
    destruct (raise_furniture_order (scn e) Hnd) as (Hh & Ho).
    cbn [scn with_scene]. split; [exact Hh|]. rewrite Ho. fold q. rewrite Hl.
    destruct (q y) eqn:Qy; [discriminate|].
    rewrite !List.filter_app. cbn [List.filter]. rewrite Qy, Hf, EA. reflexivity.
  - assert (Hs : sendObjectBackwards t (scn e) = set_objects (A ++ t :: y :: B) (scn e)).
    { unfold sendObjectBackwards. rewrite Hl.
      replace (A ++ y :: t :: B) with ((A ++ [y]) ++ t :: B) by (rewrite <- app_assoc; reflexivity).
      rewrite index_of_app.
      2:{ intros H. apply in_app_or in H as [H|[H|[]]]; [contradiction|congruence]. }
      rewrite List.length_app. cbn [List.length]. rewrite Nat.add_1_r.
      rewrite remove_first_app.
      2:{ intros H. apply in_app_or in H as [H|[H|[]]]; [contradiction|congruence]. }
      rewrite <- app_assoc. cbn [app].
      rewrite take_app_length, drop_app_length. reflexivity. }
    rewrite Hs.
    destruct (raise_furniture_order (set_objects (A ++ t :: y :: B) (scn e)) Hnd') as (Hh & Ho).
    cbn [scn with_scene]. split; [exact Hh|]. rewrite Ho. reflexivity.
Qed.

Lemma Qfloor_unique (z : Z) (x : Q) : inject_Z z <= x -> x < inject_Z z + 1 -> Qfloor x = z.
Proof.
  intros H1 H2. pose proof (Qfloor_le x) as F1. pose proof (Qlt_floor x) as F2.
  rewrite inject_Z_plus in F2. change (inject_Z 1) with 1 in F2.
  assert (A : (z < Qfloor x + 1)%Z).
  { rewrite Zlt_Qlt, inject_Z_plus. change (inject_Z 1) with 1. lra. }
  assert (B : (Qfloor x < z + 1)%Z).
  { rewrite Zlt_Qlt, inject_Z_plus. change (inject_Z 1) with 1. lra. }
  lia.
Qed.

Lemma js_round_shift (x : Q) (k : Z) : js_round (x + inject_Z k) = (js_round x + k)%Z.
Proof.
  unfold js_round. apply Qfloor_unique.
  - pose proof (Qfloor_le (x + (1 # 2))). rewrite inject_Z_plus. lra.
  - pose proof (Qlt_floor (x + (1 # 2))). rewrite inject_Z_plus in *.
    change (inject_Z 1) with 1 in *. lra.
Qed.

Lemma js_round_int (k : Z) (x : Q) : x == inject_Z k -> js_round x = k.
Proof. intros H. unfold js_round. apply Qfloor_unique; rewrite H; lra. Qed.

(** X13: for a positive grid size, snapping a snapped coordinate changes
    nothing; shifting a coordinate by whole grid cells shifts its snapped
    value by the same amount; and a coordinate exactly halfway between two
    grid lines snaps to the upper one. *)
Theorem snapToGrid_grid_laws (c s : Q) (k : Z) (Hs : 0 < s) :
  snapToGrid (snapToGrid c s) s = snapToGrid c s /\
  snapToGrid (c + inject_Z k * s) s == snapToGrid c s + inject_Z k * s /\
  snapToGrid ((inject_Z k + (1 # 2)) * s) s = inject_Z (k + 1) * s.
Proof.
  unfold snapToGrid. split; [|split].
  - f_equal. f_equal. apply js_round_int. field. lra.
  - assert (E : (c + inject_Z k * s) / s == c / s + inject_Z k) by (field; lra).
    unfold js_round in *. rewrite (Qfloor_comp _ _ (Qplus_comp _ _ E _ _ (Qeq_refl _))).
    fold (js_round (c / s + inject_Z k)). rewrite js_round_shift, inject_Z_plus. unfold js_round. ring.
  - f_equal. f_equal. unfold js_round. apply Qfloor_unique.
    + assert (E : (inject_Z k + (1 # 2)) * s / s == inject_Z k + (1 # 2)) by (field; lra).
      rewrite E, inject_Z_plus. change (inject_Z 1) with 1. lra.
    + assert (E : (inject_Z k + (1 # 2)) * s / s == inject_Z k + (1 # 2)) by (field; lra).
      rewrite E, inject_Z_plus. change (inject_Z 1) with 1. lra.
Qed.

Lemma div_20a_plus_1 (a : Z) : ((20 * a + 1) / 2 = 10 * a)%Z.
Proof.
  replace (20 * a + 1)%Z with (1 + (10 * a) * 2)%Z by ring.
  rewrite Z.div_add by lia. reflexivity.
Qed.

Lemma dimension_tenths_axis (x y : Q) (n : Z) :
  dimension_tenths x y (x + inject_Z n * 20) y = (10 * Z.abs n)%Z /\
  dimension_tenths x y x (y + inject_Z n * 20) = (10 * Z.abs n)%Z.
Proof.
  assert (Hsq : forall d : Q, d == inject_Z n * 20 ->
            Z.sqrt (Qfloor (d * d + 0 * 0)) = (20 * Z.abs n)%Z).
  { intros d Hd.
    assert (F : Qfloor (d * d + 0 * 0) = (20 * Z.abs n * (20 * Z.abs n))%Z).
    { assert (Ha : inject_Z (Z.abs n) * inject_Z (Z.abs n) == inject_Z n * inject_Z n)
        by (rewrite <- !inject_Z_mult, Z.abs_square; reflexivity).
      apply Qfloor_unique; rewrite Hd, !inject_Z_mult; change (inject_Z 20) with 20; nra. }
    rewrite F. apply Z.sqrt_square. lia. }
  unfold dimension_tenths. split.
  - rewrite (Qfloor_comp _ ((x + inject_Z n * 20 - x) * (x + inject_Z n * 20 - x) + 0 * 0)) by ring.
    rewrite Hsq by ring. apply div_20a_plus_1.
  - rewrite (Qfloor_comp _ ((y + inject_Z n * 20 - y) * (y + inject_Z n * 20 - y) + 0 * 0)) by ring.
    rewrite Hsq by ring. apply div_20a_plus_1.
Qed.

Lemma feet_text_whole (a : Z) : feet_text (10 * a) = (Z_to_string a ++ "'")%string.
Proof.
  unfold feet_text. rewrite Z.mul_comm, Z.mod_mul, Z.div_mul by lia. reflexivity.
Qed.

Lemma add_all_spec (os : list fobj) (s : scene) :
  objects (add_all os s) = objects s ++ seq (next_ref s) (List.length os) /\
  roomLabels (add_all os s) = roomLabels s /\
  roomCounter (add_all os s) = roomCounter s /\
  next_ref (add_all os s) = (next_ref s + List.length os)%nat /\
  (forall i o, os !! i = Some o -> heap (add_all os s) !! (next_ref s + i)%nat = Some o) /\
  (forall r, (r < next_ref s)%nat -> heap (add_all os s) !! r = heap s !! r).
Proof.
  revert s. induction os as [|o os IH]; intros s.
  - cbn. rewrite app_nil_r, Nat.add_0_r. repeat split; auto. intros i o H. discriminate.
  - change (add_all (o :: os) s) with (add_all os (canvas_add (next_ref s) (snd (alloc o s)))).
    destruct (IH (canvas_add (next_ref s) (snd (alloc o s)))) as (Ho & Hl & Hc & Hn & Hi & Hk).
    unfold canvas_add, set_objects, alloc, snd in *.
    cbn [objects roomLabels roomCounter next_ref heap] in *.
    split; [rewrite Ho, <- app_assoc; reflexivity|].
    split; [exact Hl|]. split; [exact Hc|]. split; [rewrite Hn; cbn [List.length]; lia|].
    split.
    + intros [|i] o' H.
      * cbn in H. injection H as <-. rewrite Nat.add_0_r, Hk by lia. apply lookup_insert_eq.
      * cbn in H. replace (next_ref s + S i)%nat with (S (next_ref s) + i)%nat by lia. apply Hi, H.
    + intros r Hr. rewrite Hk by lia. apply lookup_insert_ne. lia.
Qed.

(** X14: a horizontal or vertical dimension line spanning [n] grid cells
    (20 px each) is added with its text on top, and the text reads [|n|]
    followed by a foot mark, with no decimal part. *)
Theorem addDimension_whole_cells (x y : Q) (n : Z) (s : scene) :
  let txt := (Z_to_string (Z.abs n) ++ "'")%string in
  objects (addDimension x y (x + inject_Z n * 20) y s) = objects s ++ [next_ref s; S (next_ref s)] /\
  (exists l t, obj_at (addDimension x y (x + inject_Z n * 20) y s) (S (next_ref s)) =
               Some (plain (SText l t txt))) /\
  objects (addDimension x y x (y + inject_Z n * 20) s) = objects s ++ [next_ref s; S (next_ref s)] /\
  (exists l t, obj_at (addDimension x y x (y + inject_Z n * 20) s) (S (next_ref s)) =
               Some (plain (SText l t txt))).
Proof.
  cbv zeta. destruct (dimension_tenths_axis x y n) as [Dx Dy].
  unfold addDimension. rewrite Dx, Dy, feet_text_whole.
  destruct (add_all_spec [plain (SLine x y (x + inject_Z n * 20) y);
                          plain (SText ((x + (x + inject_Z n * 20)) / 2) ((y + y) / 2 - 10)
                                       (Z_to_string (Z.abs n) ++ "'"))] s) as (Ho1 & _ & _ & _ & Hi1 & _).
  destruct (add_all_spec [plain (SLine x y x (y + inject_Z n * 20));
                          plain (SText ((x + x) / 2) ((y + (y + inject_Z n * 20)) / 2 - 10)
                                       (Z_to_string (Z.abs n) ++ "'"))] s) as (Ho2 & _ & _ & _ & Hi2 & _).
  split; [exact Ho1|]. split; [|split; [exact Ho2|]]; do 2 eexists; unfold obj_at;
    rewrite <- Nat.add_1_r; [apply Hi1|apply Hi2]; reflexivity.
Qed.

(** X15: in every reachable state, clearing the canvas leaves exactly the
    102 freshly drawn grid lines. It keeps the room label index and the room
    counter as they were, so every registered label pair now refers to
    objects no longer on the canvas. *)
Theorem clear_canvas_leaves_grid (evs : list event) :
  let e := run evs init_editor in
  let s' := scn (step e ClearCanvas) in
  objects s' = seq (next_ref (scn e)) 102 /\
  (forall r, In r (objects s') -> exists x1 y1 x2 y2, obj_at s' r = Some (plain (SLine x1 y1 x2 y2))) /\
  roomLabels s' = roomLabels (scn e) /\ roomCounter s' = roomCounter (scn e) /\
  (forall id w h, roomLabels s' !! id = Some (w, h) -> ~ In w (objects s') /\ ~ In h (objects s')).
Proof.
  cbv zeta. set (e := run evs init_editor).
  pose proof (wf_reachable evs) as Hw. fold e in Hw. destruct Hw as (_ & _ & H3 & _).
  rewrite scn_step. cbn [dispatch scn with_tool with_selected with_scene].
  unfold clearCanvas, addGridToCanvas.
  set (os := map _ (grid_steps canvasWidth) ++ map _ (grid_steps canvasHeight)).
  destruct (add_all_spec os (set_objects [] (scn e))) as (Ho & Hl & Hc & _ & Hi & _).
  cbn [objects next_ref roomLabels roomCounter set_objects] in *.
  assert (Hlen : List.length os = 102%nat) by reflexivity.
  rewrite Hlen in Ho. cbn [app] in Ho.
  split; [exact Ho|]. split; [|split; [exact Hl|split; [exact Hc|]]].
  - intros r Hr. rewrite Ho in Hr. apply in_seq in Hr as [Hr1 Hr2].
    destruct (os !! (r - next_ref (scn e))%nat) as [o|] eqn:Eo.
    2:{ exfalso. apply lookup_ge_None in Eo. rewrite Hlen in Eo. lia. }
    pose proof (Hi _ _ Eo) as Ho'. replace (next_ref (scn e) + (r - next_ref (scn e)))%nat with r in Ho' by lia.
    unfold obj_at. rewrite Ho'.
    apply list_elem_of_lookup_2, list_elem_of_In in Eo.
    unfold os in Eo. apply in_app_or in Eo as [Eo|Eo]; apply in_map_iff in Eo as (i & <- & _);
      do 4 eexists; reflexivity.
  - intros id w h Hwh. rewrite Hl in Hwh. destruct (H3 id w h Hwh) as (Lw & Lh & _).
    rewrite Ho. split; intros Hin; apply in_seq in Hin; lia.
Qed.

(** X16: of the three synthetic rooms, the living room and the kitchen
    always lie within the image. The bedroom lies within it exactly when
    the width is at most 4/3 of the height: its height is computed from the
    image width. *)
Theorem createSyntheticRooms_inside (img : image)
  (Hw : 0 <= naturalWidth img) (Hh : 0 <= naturalHeight img) :
  match createSyntheticRooms img with
  | [living; kitchen; bedroom] =>
      inside_image img living /\ inside_image img kitchen /\
      (inside_image img bedroom <-> 3 * naturalWidth img <= 4 * naturalHeight img)
  | _ => False
  end.
Proof.
  destruct img as [W H]; cbn in *. unfold inside_image; cbn.
  split; [repeat split; lra|]. split; [repeat split; lra|].
  split; [intros (_ & _ & _ & _ & _ & Hb); lra|intros Hb; repeat split; lra].
Qed.

Lemma createSyntheticRooms_inside_witness :
  0 <= 1600 /\ 0 <= 900 /\
  ~ inside_image (mkImage 1600 900) (nth 2 (createSyntheticRooms (mkImage 1600 900)) (mkElement ERoom (mkCoords 0 0 0 0) None 0)).
Proof.
  split; [lra|]. split; [lra|].
  pose proof (createSyntheticRooms_inside (mkImage 1600 900) ltac:(cbn; lra) ltac:(cbn; lra)) as H.
  cbn [createSyntheticRooms naturalWidth naturalHeight nth] in *.
  destruct H as (_ & _ & Hb). rewrite Hb. lra.
Defined.

Lemma validateFile_accepted_witness :
  isValid (validateFile plan_png) = true /\
  handleFileSelect plan_png (mkUpload None None) =
    mkUpload (Some (mkFile 1000%Z "my_plan.png" "image/png" (sig_png ++ [0%Z]) (Some (800%Z, 600%Z))))
             (Some "File validated and selected successfully"%string).
Proof.
  assert (Hv : isValid (validateFile plan_png) = true) by (vm_compute; reflexivity).
  split; [exact Hv|].
  destruct (validateFile_accepted plan_png (mkUpload None None)) as [_ H].
  destruct (H Hv) as [_ Hs]. rewrite Hs. vm_compute. reflexivity.
Defined.

Lemma analyzeFloorplan_data_has_room_witness :
  analyzeFloorplan "image/png" detect_env =
    mkResult true (Some (performAnalysis detect_env (mkImage 1000 800))) None /\
  exists el, In el (elements (performAnalysis detect_env (mkImage 1000 800))) /\ el_type el = ERoom.
Proof.
  assert (Hok : analyzeFloorplan "image/png" detect_env =
    mkResult true (Some (performAnalysis detect_env (mkImage 1000 800))) None) by reflexivity.
  split; [exact Hok|].
  apply (analyzeFloorplan_data_has_room "image/png" detect_env _ Hok).
Defined.

Lemma handleAnalyze_delivers_empty_plan_witness :
  dlg_file dialog_with_plan = Some plan_png /\
  convertToImage (file_type plan_png) detect_env = Ok tt /\
  env_load_image detect_env <> None /\
  exists v, dlg_analyzed (handleAnalyze no_number_string no_number_array (fun s => s)
                            detect_env dialog_with_plan) = Some v /\ vd_elements v = [].
Proof.
  assert (Hf : dlg_file dialog_with_plan = Some plan_png) by reflexivity.
  assert (Hc : convertToImage (file_type plan_png) detect_env = Ok tt) by reflexivity.
  assert (Hl : env_load_image detect_env <> None) by discriminate.
  split; [exact Hf|]. split; [exact Hc|]. split; [exact Hl|].
  destruct (handleAnalyze_delivers_empty_plan no_number_string no_number_array (fun s => s)
              detect_env dialog_with_plan plan_png Hf Hc Hl) as (v & Hv & He).
  exists v. rewrite Hv. split; [reflexivity|exact He].
Defined.

Lemma handleBringToFront_furniture_witness :
  objects (scn (handleBringToFront (layered_editor 1%nat))) = [0%nat; 3%nat; 2%nat; 1%nat].
Proof.
  destruct (handleBringToFront_furniture (layered_editor 1%nat) 1%nat eq_refl
              ltac:(vm_compute; reflexivity) ltac:(simpl; tauto) ltac:(vm_compute; repeat (apply List.NoDup_cons; [simpl; lia|]); apply List.NoDup_nil))
    as [_ Ho].
  rewrite Ho. vm_compute. reflexivity.
Defined.

Lemma handleSendToBack_furniture_witness :
  objects (scn (handleSendToBack (layered_editor 2%nat))) = [0%nat; 3%nat; 1%nat; 2%nat].
Proof.
  destruct (handleSendToBack_furniture (layered_editor 2%nat) 2%nat 0%nat [1%nat] [3%nat] eq_refl
              ltac:(vm_compute; reflexivity) eq_refl ltac:(vm_compute; repeat (apply List.NoDup_cons; [simpl; lia|]); apply List.NoDup_nil))
    as [_ Ho].
  rewrite Ho. vm_compute. reflexivity.
Defined.

Lemma snapToGrid_grid_laws_witness :
  snapToGrid (snapToGrid 27 20) 20 = snapToGrid 27 20 /\ snapToGrid 30 20 = 40.
Proof.
  destruct (snapToGrid_grid_laws 27 20 1 ltac:(lra)) as (H1 & _ & H3).
  split; [exact H1|]. exact H3.
Defined.

Lemma raise_furniture_partition_witness :
  objects (raise_furniture layered_scene) = [0%nat; 3%nat; 1%nat; 2%nat].
Proof.
  destruct (raise_furniture_partition layered_scene
              ltac:(vm_compute; repeat (apply List.NoDup_cons; [simpl; lia|]); apply List.NoDup_nil))
    as [_ Ho].
  rewrite Ho. vm_compute. reflexivity.
Defined.
